(** * genai-training-track: the context-propagating tool dispatcher and
      the glue around it

    A shallow embedding of
    - [my_agent/containers.py]  ([process_tool_call]),
    - [my_mcp/mcp_with_deps.py] ([echo_deps]),
    - [my_mcp/sleeper_fantasy.py] ([make_sleeper_request] and the tools),
    - [my_api/my_agent_api.py]  ([chat]),
    together with the properties the specification states about them.

    Python objects live in a store and are handed around by reference;
    a raised exception is an explicit outcome; an [async def] whose
    suspension matters is a resumption. *)

From Stdlib Require Import ZArith Ascii String.
From stdpp Require Import base option list gmap strings pretty.

Local Open Scope string_scope.
#[local] Set Warnings "-register-all".

(* ===================================================================== *)
(** ** Python objects, exceptions and the store *)
(* ===================================================================== *)

Module Py.

(** An object reference.  Two references are the same object exactly
    when the locations are equal ([is] in Python). *)
Definition loc := nat.

(** The objects the embedded code builds or inspects.  Containers hold
    references, never copies. *)
Inductive obj :=
| ONone
| OBool (b : bool)
| OInt (n : Z)
| OStr (s : string)
| OList (items : list loc)
| ODict (entries : gmap string loc)
| OObject (cls : string) (attributes : gmap string loc).

Definition type_name (o : obj) : string :=
  match o with
  | ONone => "NoneType"
  | OBool _ => "bool"
  | OInt _ => "int"
  | OStr _ => "str"
  | OList _ => "list"
  | ODict _ => "dict"
  | OObject cls _ => cls
  end.

(** Raised exceptions.  [Exc] is an instance of a class derived from
    [Exception]; [BaseExc] an instance of a class derived from
    [BaseException] only ([KeyboardInterrupt], [SystemExit],
    [asyncio.CancelledError]); [HTTPException] is FastAPI's, itself an
    [Exception].  The [msg] field is the text [str(e)] gives. *)
Inductive exc :=
| Exc (cls : string) (msg : string)
| BaseExc (cls : string) (msg : string)
| HTTPException (status_code : Z) (detail : string).

(** [isinstance(e, Exception)], the test behind [except Exception]. *)
Definition is_Exception (e : exc) : bool :=
  match e with
  | BaseExc _ _ => false
  | _ => true
  end.

(** [str(e)]. *)
Definition exc_str (e : exc) : string :=
  match e with
  | Exc _ msg | BaseExc _ msg => msg
  | HTTPException code detail => pretty code ++ ": " ++ detail
  end.

Inductive outcome (A : Type) :=
| Ok (a : A)
| Err (e : exc).
Arguments Ok {A} a.
Arguments Err {A} e.

Definition is_Ok {A} (r : outcome A) : bool :=
  match r with Ok _ => true | Err _ => false end.

(** [try: body  except Exception as e: handler(e)] on outcomes: only
    instances of [Exception] are caught. *)
Definition try_except_Exception {A} (body : outcome A) (handler : exc -> outcome A)
  : outcome A :=
  match body with
  | Ok a => Ok a
  | Err e => if is_Exception e then handler e else Err e
  end.

(** Sequencing: the first exception ends the computation. *)
Definition obind {A B} (r : outcome A) (k : A -> outcome B) : outcome B :=
  match r with
  | Ok a => k a
  | Err e => Err e
  end.

(** Plain data, as [response.json()] gives it and as an endpoint
    returns it: [None], [bool], [int], [float],
    [str], [list] or [dict].  A float is kept as its [repr]; the
    members of a dict are in insertion order, keys distinct. *)
Inductive json :=
| JNull
| JBool (b : bool)
| JInt (n : Z)
| JFloat (repr : string)
| JStr (s : string)
| JArr (items : list json)
| JObj (members : list (string * json)).

Definition json_type (v : json) : string :=
  match v with
  | JNull => "NoneType"
  | JBool _ => "bool"
  | JInt _ => "int"
  | JFloat _ => "float"
  | JStr _ => "str"
  | JArr _ => "list"
  | JObj _ => "dict"
  end.

(** The store: the objects allocated so far, and the log notifications
    sent to the client of the MCP session. *)
Record world := World {
  heap : list obj;
  notifications : list (string * string)
}.

(** Computations that read and extend the store and may raise. *)
Definition M (A : Type) : Type := world -> outcome A * world.

Definition ret {A} (a : A) : M A := fun w => (Ok a, w).
Definition raise {A} (e : exc) : M A := fun w => (Err e, w).
Definition bind {A B} (m : M A) (k : A -> M B) : M B :=
  fun w => match m w with
           | (Ok a, w') => k a w'
           | (Err e, w') => (Err e, w')
           end.

(** Allocation of a fresh object; its reference is the next free
    location, so no existing object is touched. *)
Definition store (o : obj) (w : world) : world :=
  {| heap := heap w ++ [o]; notifications := notifications w |}.

Definition alloc (o : obj) : M loc :=
  fun w => (Ok (length (heap w)), store o w).

(** Instance attributes of the object at [o].  Only objects of user
    classes carry any; a dangling reference has none. *)
Definition attrs_of (h : list obj) (o : loc) : gmap string loc :=
  match h !! o with
  | Some (OObject _ attributes) => attributes
  | _ => ∅
  end.

Definition class_of (h : list obj) (o : loc) : string :=
  match h !! o with
  | Some ob => type_name ob
  | None => "object"
  end.

(** [getattr(o, name)] without a default: [AttributeError] when the
    attribute is missing. *)
Definition getattr (o : loc) (name : string) : M loc :=
  fun w => match attrs_of (heap w) o !! name with
           | Some v => (Ok v, w)
           | None =>
               (Err (Exc "AttributeError"
                       ("'" ++ class_of (heap w) o
                            ++ "' object has no attribute '" ++ name ++ "'")), w)
           end.

Definition hasattr (h : list obj) (o : loc) (name : string) : bool :=
  bool_decide (is_Some (attrs_of h o !! name)).

End Py.

Export Py.

Declare Scope outcome_scope.
Delimit Scope outcome_scope with outcome.
Notation "'let?' x ':=' m 'in' k" := (obind m (fun x => k))
  (at level 10, x name, m at level 100, k at level 200,
   format "'[v' 'let?'  x  ':='  m  'in' '/' k ']'") : outcome_scope.

Declare Scope py_scope.
Delimit Scope py_scope with py.
Notation "'let*' x ':=' m 'in' k" := (bind m (fun x => k))
  (at level 10, x name, m at level 100, k at level 200,
   format "'[v' 'let*'  x  ':='  m  'in' '/' k ']'") : py_scope.
Notation "'do*' m 'in' k" := (bind m (fun _ => k))
  (at level 10, m at level 100, k at level 200,
   format "'[v' 'do*'  m  'in' '/' k ']'") : py_scope.
Local Open Scope py_scope.

(* ===================================================================== *)
(** ** my_mcp/mcp_with_deps.py *)
(* ===================================================================== *)

Module McpWithDeps.

(** What a tool sees of its invocation: [ctx.request_context.meta]. *)
Record RequestContext := { meta : loc }.
Record Context := { request_context : RequestContext }.

(** A log notification goes out on the session; nothing else changes. *)
Definition notify (level msg : string) (w : world) : world :=
  {| heap := heap w; notifications := notifications w ++ [(level, msg)] |}.

(** [await ctx.info(msg)]. *)
Definition info (ctx : Context) (msg : string) : M unit :=
  fun w => (Ok tt, notify "info" msg w).

(** Echo the run context. *)

Definition echo_deps (ctx : Context) : M loc :=
  do* info ctx "This is an info message" in
  let* deps := getattr (meta (request_context ctx)) "deps" in
  let* echo := alloc (OStr "This is an echo message") in
  alloc (ODict {[ "echo" := echo; "deps" := deps ]}).

(** A tool as the server holds it: invoked with its context and the
    arguments mapping. *)
Definition tool : Type := Context -> loc -> M loc.

(** [@mcp.tool()] registers the function under its own name; this
    server has the one tool, which takes no arguments. *)
Definition tools : gmap string tool :=
  {[ "echo_deps" := fun ctx _ => echo_deps ctx ]}.

End McpWithDeps.

(* ===================================================================== *)
(** ** my_agent/containers.py *)
(* ===================================================================== *)

Module Containers.

(** [RunContext[int]]: the processor reads [ctx.deps] and nothing else. *)
Record RunContext := { deps : loc }.

(** An [async def] as a resumption: it returns, raises, allocates, or
    suspends on a tool call until the outcome of the call is handed
    back. *)
Inductive coro (R : Type) : Type :=
| Return (r : R)
| Raise (e : exc)
| New (o : obj) (k : loc -> coro R)
| Await (name : string) (args metadata : loc) (k : outcome loc -> coro R).
Arguments Return {R} r.
Arguments Raise {R} e.
Arguments New {R} o k.
Arguments Await {R} name args metadata k.

(** [CallToolFunc]: name, arguments, metadata. *)
Definition CallToolFunc : Type := string -> loc -> loc -> coro loc.

(** What [await] makes of the outcome of a call: its value is the
    value of the [await], its exception is raised in the awaiting
    coroutine. *)
Definition await_result (r : outcome loc) : coro loc :=
  match r with
  | Ok v => Return v
  | Err e => Raise e
  end.

(** Modelled from the spec: the [call_tool] of the agent framework as
    the processor receives it, which is not part of the repository.
    Awaiting it is one suspension on the tool-calling mechanism, which
    gets the name, the arguments and the metadata. *)
Definition direct_call_tool : CallToolFunc :=
  fun name args metadata => Await name args metadata await_result.

(** The metadata envelope [{'deps': ctx.deps}]. *)
Definition envelope (ctx : RunContext) : obj := ODict {[ "deps" := deps ctx ]}.

(** A tool call processor that passes along the deps. *)
Definition process_tool_call (ctx : RunContext) (call_tool : CallToolFunc)
    (name : string) (tool_args : loc) : coro loc :=
  New (envelope ctx) (fun metadata => call_tool name tool_args metadata).

(** *** Running a coroutine to completion

    [mech] answers each tool call the coroutine suspends on. *)
Definition mechanism : Type := string -> loc -> loc -> M loc.

Fixpoint run {R} (mech : mechanism) (c : coro R) : M R :=
  match c with
  | Return r => ret r
  | Raise e => raise e
  | New o k => fun w => run mech (k (length (heap w))) (store o w)
  | Await name args metadata k =>
      fun w => let '(r, w') := mech name args metadata w in run mech (k r) w'
  end.

(** *** Several coroutines on one event loop

    A task runs without interruption up to its next suspension; the
    loop then picks any task that can go on.  The outcome delivered
    to a suspended task, and whatever happened to the store while it
    waited, are the environment's choice. *)
Inductive task (R : Type) : Type :=
| Ready (c : coro R)
| Waiting (name : string) (args metadata : loc) (k : outcome loc -> coro R)
| Done (r : outcome R).
Arguments Ready {R} c.
Arguments Waiting {R} name args metadata k.
Arguments Done {R} r.

Fixpoint advance {R} (c : coro R) (w : world) : task R * world :=
  match c with
  | Return r => (Done (Ok r), w)
  | Raise e => (Done (Err e), w)
  | New o k => advance (k (length (heap w))) (store o w)
  | Await name args metadata k => (Waiting name args metadata k, w)
  end.

(** A tool call as the mechanism receives it, with the envelope as it
    is in the store at that moment. *)
Record call_event := {
  ev_task : nat;
  ev_name : string;
  ev_args : loc;
  ev_metadata : loc;
  ev_envelope : option obj
}.

Definition issued {R} (i : nat) (t : task R) (w : world) : list call_event :=
  match t with
  | Waiting name args metadata _ =>
      [ {| ev_task := i; ev_name := name; ev_args := args;
           ev_metadata := metadata; ev_envelope := heap w !! metadata |} ]
  | _ => []
  end.

Record pool (R : Type) := Pool {
  pool_world : world;
  pool_tasks : list (task R);
  pool_trace : list call_event
}.
Arguments Pool {R}.
Arguments pool_world {R}.
Arguments pool_tasks {R}.
Arguments pool_trace {R}.

Inductive action :=
| Run (i : nat)
| Deliver (i : nat) (r : outcome loc) (w' : world).

Definition do_action {R} (a : action) (p : pool R) : option (pool R) :=
  match a with
  | Run i =>
      match pool_tasks p !! i with
      | Some (Ready c) =>
          let '(t, w') := advance c (pool_world p) in
          Some {| pool_world := w';
                  pool_tasks := <[i := t]> (pool_tasks p);
                  pool_trace := pool_trace p ++ issued i t w' |}
      | _ => None
      end
  | Deliver i r w' =>
      match pool_tasks p !! i with
      | Some (Waiting _ _ _ k) =>
          Some {| pool_world := w';
                  pool_tasks := <[i := Ready (k r)]> (pool_tasks p);
                  pool_trace := pool_trace p |}
      | _ => None
      end
  end.

Fixpoint schedule {R} (acts : list action) (p : pool R) : option (pool R) :=
  match acts with
  | [] => Some p
  | a :: acts => match do_action a p with
                 | Some p' => schedule acts p'
                 | None => None
                 end
  end.

(** One dispatch the caller asks for. *)
Record invocation := {
  inv_ctx : RunContext;
  inv_name : string;
  inv_args : loc
}.

Definition dispatch (inv : invocation) : coro loc :=
  process_tool_call (inv_ctx inv) direct_call_tool (inv_name inv) (inv_args inv).

Definition start (w : world) (invs : list invocation) : pool loc :=
  {| pool_world := w;
     pool_tasks := (fun inv => Ready (dispatch inv)) <$> invs;
     pool_trace := [] |}.





End Containers.

(* ===================================================================== *)
(** ** The tool-calling mechanism *)
(* ===================================================================== *)

Module Mechanism.
Import McpWithDeps Containers.

(** Modelled from the spec: how the mechanism shows the envelope to the
    tool.  The entries of the envelope become the attributes of
    [request_context.meta], each bound to the very object the envelope
    holds; without an envelope [meta] is [None]. *)
Definition request_meta (metadata : loc) : M loc :=
  fun w => match heap w !! metadata with
           | Some (ODict entries) => alloc (OObject "Meta" entries) w
           | _ => alloc ONone w
           end.

(** Modelled from the spec: a tool invoked directly, with its
    arguments and the metadata of the request. *)
Definition invoke (t : tool) (args metadata : loc) : M loc :=
  let* m := request_meta metadata in
  t {| request_context := {| meta := m |} |} args.

(** Modelled from the spec: the tool-calling mechanism of the agent
    framework, which is not part of the repository.  The registry maps
    a tool name to a callable taking arguments and metadata; the name
    is resolved at call time with a checked lookup, an unregistered
    name gives [ToolNotFound], a registered tool is invoked once and
    its outcome is the outcome of the call. *)
Definition tool_mechanism (registry : gmap string tool) : mechanism :=
  fun name args metadata =>
    match registry !! name with
    | Some t => invoke t args metadata
    | None => raise (Exc "ToolNotFound" name)
    end.

End Mechanism.

(* ===================================================================== *)
(** ** my_mcp/sleeper_fantasy.py *)
(* ===================================================================== *)

Module SleeperFantasy.

Definition is_None (v : json) : bool :=
  match v with JNull => true | _ => false end.
Definition isinstance_list (v : json) : bool :=
  match v with JArr _ => true | _ => false end.
Definition isinstance_dict (v : json) : bool :=
  match v with JObj _ => true | _ => false end.

(** Built-ins of the interpreter the tools lean on and that are taken
    as given: the text of a float, a list or a dict; [==] between
    hashable values (the keys of a dict); [str.title]; the number of
    characters of a [str]. *)
Record interpreter := {
  repr_value : json -> string;
  key_eq : json -> json -> bool;
  title : string -> string;
  len_str : string -> nat
}.

(** The elements of a list, the members of a dict. *)
Definition items_of (v : json) : list json :=
  match v with JArr items => items | _ => [] end.
Definition members_of (v : json) : list (string * json) :=
  match v with JObj members => members | _ => [] end.

(** [str(v)], which is what an f-string field shows. *)
Definition py_str (py : interpreter) (v : json) : string :=
  match v with
  | JNull => "None"
  | JBool true => "True"
  | JBool false => "False"
  | JInt n => pretty n
  | JStr s => s
  | _ => repr_value py v
  end.

(** The value under [key], if any. *)
Fixpoint assoc (key : string) (members : list (string * json)) : option json :=
  match members with
  | [] => None
  | (k, v) :: rest => if String.eqb k key then Some v else assoc key rest
  end.

(** [v.get(key, default)]: only a dict has the method. *)
Definition dict_get (v : json) (key : string) (default : json) : outcome json :=
  match v with
  | JObj members => Ok (match assoc key members with
                        | Some x => x
                        | None => default
                        end)
  | _ => Err (Exc "AttributeError"
                ("'" ++ json_type v ++ "' object has no attribute 'get'"))
  end.

(** [len(v)]. *)
Definition py_len (py : interpreter) (v : json) : outcome Z :=
  match v with
  | JArr items => Ok (Z.of_nat (length items))
  | JObj members => Ok (Z.of_nat (length members))
  | JStr s => Ok (Z.of_nat (len_str py s))
  | _ => Err (Exc "TypeError"
                ("object of type '" ++ json_type v ++ "' has no len()"))
  end.

(** Lists and dicts cannot be keys of a dict. *)
Definition hashable (v : json) : bool :=
  match v with JArr _ | JObj _ => false | _ => true end.

(** [sep.join(parts)]. *)
Fixpoint join (sep : string) (parts : list string) : string :=
  match parts with
  | [] => ""
  | [s] => s
  | s :: rest => s ++ sep ++ join sep rest
  end.

(** The newline character. *)
Definition NL : string := String (Ascii.ascii_of_nat 10) EmptyString.

(** A [for] loop that appends one result per element; the first
    exception ends it. *)
Fixpoint for_each {A B} (f : A -> outcome B) (l : list A) : outcome (list B) :=
  match l with
  | [] => Ok []
  | x :: rest =>
      obind (f x) (fun y => obind (for_each f rest) (fun ys => Ok (y :: ys)))
  end.

(** The response object of the HTTP client, by the two methods the
    code calls on it. *)
Record Response := {
  raise_for_status : outcome unit;
  response_json : outcome json
}.

(** Constants *)
Definition SLEEPER_API_BASE : string := "https://api.sleeper.app/v1".
Definition LEAGUE_ID : string := "1182861335834730496".

Local Open Scope outcome_scope.

Section Tools.

Variable py : interpreter.

(** [await client.get(url, timeout=30.0)] on a client that
    [async with httpx.AsyncClient()] opened and closes again; the
    opening and the closing are taken to succeed. *)
Variable client_get : string -> outcome Response.

(** The body of the [try]. *)
Definition fetch (url : string) : outcome json :=
  let? response := client_get url in
  let? _ := raise_for_status response in
  response_json response.

(** Make a request to the Sleeper API with proper error handling. *)
Definition make_sleeper_request (url : string) : outcome json :=
  try_except_Exception (fetch url) (fun _ => Ok JNull).

(** An f-string field [{v.get(key, default)}]. *)
Definition field (v : json) (key : string) (default : json) : outcome string :=
  let? x := dict_get v key default in
  Ok (py_str py x).

(** Get Sleeper user information by username. *)
Definition get_user (username : string) : outcome string :=
  let url := SLEEPER_API_BASE ++ "/user/" ++ username in
  let? data := make_sleeper_request url in
  if is_None data then
    Ok ("Unable to fetch user information for username: " ++ username)
  else
    let? user_id := field data "user_id" (JStr "N/A") in
    let? user_name := field data "username" (JStr "N/A") in
    let? display_name := field data "display_name" (JStr "N/A") in
    let? avatar := field data "avatar" (JStr "N/A") in
    Ok (NL ++ "User ID: " ++ user_id ++ NL
           ++ "Username: " ++ user_name ++ NL
           ++ "Display Name: " ++ display_name ++ NL
           ++ "Avatar ID: " ++ avatar ++ NL).

(** The body of the loop over the leagues. *)
Definition league_info (league : json) : outcome string :=
  let? name := field league "name" (JStr "Unknown") in
  let? league_id := field league "league_id" (JStr "N/A") in
  let? status := field league "status" (JStr "N/A") in
  let? total_rosters := field league "total_rosters" (JStr "N/A") in
  let? season := field league "season" (JStr "N/A") in
  let? draft_id := field league "draft_id" (JStr "N/A") in
  Ok (NL ++ "League Name: " ++ name ++ NL
         ++ "League ID: " ++ league_id ++ NL
         ++ "Status: " ++ status ++ NL
         ++ "Total Rosters: " ++ total_rosters ++ NL
         ++ "Season: " ++ season ++ NL
         ++ "Draft ID: " ++ draft_id ++ NL).

(** Get all Sleeper leagues for a user in a specific sport and season. *)
Definition get_user_leagues (user_id sport season : string) : outcome string :=
  let url := SLEEPER_API_BASE ++ "/user/" ++ user_id ++ "/leagues/"
               ++ sport ++ "/" ++ season in
  let? data := make_sleeper_request url in
  if is_None data || negb (isinstance_list data) then
    Ok ("Unable to fetch leagues for user_id: " ++ user_id)
  else if (length (items_of data) =? 0)%nat then
    Ok ("No leagues found for user_id: " ++ user_id ++ " in "
          ++ sport ++ " " ++ season)
  else
    let? leagues_info := for_each league_info (items_of data) in
    Ok (join (NL ++ "---" ++ NL) leagues_info).

(** Get detailed information about a specific Sleeper league. *)
Definition get_league (league_id : string) : outcome string :=
  let url := SLEEPER_API_BASE ++ "/league/" ++ league_id in
  let? data := make_sleeper_request url in
  if is_None data then
    Ok ("Unable to fetch league information for league_id: " ++ league_id)
  else
    let? name := field data "name" (JStr "Unknown") in
    let? lid := field data "league_id" (JStr "N/A") in
    let? status := field data "status" (JStr "N/A") in
    let? sport := field data "sport" (JStr "N/A") in
    let? season := field data "season" (JStr "N/A") in
    let? season_type := field data "season_type" (JStr "N/A") in
    let? total_rosters := field data "total_rosters" (JStr "N/A") in
    let? draft_id := field data "draft_id" (JStr "N/A") in
    let? previous := field data "previous_league_id" (JStr "N/A") in
    Ok (NL ++ "League Name: " ++ name ++ NL
           ++ "League ID: " ++ lid ++ NL
           ++ "Status: " ++ status ++ NL
           ++ "Sport: " ++ sport ++ NL
           ++ "Season: " ++ season ++ NL
           ++ "Season Type: " ++ season_type ++ NL
           ++ "Total Rosters: " ++ total_rosters ++ NL
           ++ "Draft ID: " ++ draft_id ++ NL
           ++ "Previous League ID: " ++ previous ++ NL).

(** The body of the loop over the rosters. *)
Definition roster_info (roster : json) : outcome string :=
  let? settings := dict_get roster "settings" (JObj []) in
  let? roster_id := field roster "roster_id" (JStr "N/A") in
  let? owner_id := field roster "owner_id" (JStr "N/A") in
  let? wins := field settings "wins" (JInt 0) in
  let? losses := field settings "losses" (JInt 0) in
  let? ties := field settings "ties" (JInt 0) in
  let? fpts := field settings "fpts" (JInt 0) in
  let? fpts_decimal := field settings "fpts_decimal" (JInt 0) in
  let? fpts_against := field settings "fpts_against" (JInt 0) in
  let? fpts_against_decimal := field settings "fpts_against_decimal" (JInt 0) in
  let? total_moves := field settings "total_moves" (JInt 0) in
  let? waiver_position := field settings "waiver_position" (JStr "N/A") in
  let? players := dict_get roster "players" (JArr []) in
  let? player_count := py_len py players in
  Ok (NL ++ "Roster ID: " ++ roster_id ++ NL
         ++ "Owner ID: " ++ owner_id ++ NL
         ++ "Wins: " ++ wins ++ NL
         ++ "Losses: " ++ losses ++ NL
         ++ "Ties: " ++ ties ++ NL
         ++ "Points For: " ++ fpts ++ "." ++ fpts_decimal ++ NL
         ++ "Points Against: " ++ fpts_against ++ "." ++ fpts_against_decimal ++ NL
         ++ "Total Moves: " ++ total_moves ++ NL
         ++ "Waiver Position: " ++ waiver_position ++ NL
         ++ "Player Count: " ++ pretty player_count ++ NL).

(** Get all rosters in a Sleeper league. *)
Definition get_league_rosters (league_id : string) : outcome string :=
  let url := SLEEPER_API_BASE ++ "/league/" ++ league_id ++ "/rosters" in
  let? data := make_sleeper_request url in
  if is_None data || negb (isinstance_list data) then
    Ok ("Unable to fetch rosters for league_id: " ++ league_id)
  else if (length (items_of data) =? 0)%nat then
    Ok ("No rosters found for league_id: " ++ league_id)
  else
    let? rosters_info := for_each roster_info (items_of data) in
    Ok (join (NL ++ "---" ++ NL) rosters_info).

(** The body of the loop over the users. *)
Definition user_info (user : json) : outcome string :=
  let? metadata := dict_get user "metadata" (JObj []) in
  let? user_id := field user "user_id" (JStr "N/A") in
  let? user_name := field user "username" (JStr "N/A") in
  let? display_name := field user "display_name" (JStr "N/A") in
  let? team_name := field metadata "team_name" (JStr "N/A") in
  let? is_owner := field user "is_owner" (JBool false) in
  Ok (NL ++ "User ID: " ++ user_id ++ NL
         ++ "Username: " ++ user_name ++ NL
         ++ "Display Name: " ++ display_name ++ NL
         ++ "Team Name: " ++ team_name ++ NL
         ++ "Is Commissioner: " ++ is_owner ++ NL).

(** Get all users in a Sleeper league. *)
Definition get_league_users (league_id : string) : outcome string :=
  let url := SLEEPER_API_BASE ++ "/league/" ++ league_id ++ "/users" in
  let? data := make_sleeper_request url in
  if is_None data || negb (isinstance_list data) then
    Ok ("Unable to fetch users for league_id: " ++ league_id)
  else if (length (items_of data) =? 0)%nat then
    Ok ("No users found for league_id: " ++ league_id)
  else
    let? users_info := for_each user_info (items_of data) in
    Ok (join (NL ++ "---" ++ NL) users_info).

(** [matchups_dict], in insertion order: the matchup goes to the
    group of the first key equal to its id, or opens a new group. *)
Fixpoint group_add (matchup_id matchup : json) (groups : list (json * list json))
  : list (json * list json) :=
  match groups with
  | [] => [(matchup_id, [matchup])]
  | (k, teams) :: rest =>
      if key_eq py k matchup_id then (k, (teams ++ [matchup])%list) :: rest
      else (k, teams) :: group_add matchup_id matchup rest
  end.

(** The loop that groups the matchups by [matchup_id]. *)
Fixpoint group_matchups (data : list json) (groups : list (json * list json))
  : outcome (list (json * list json)) :=
  match data with
  | [] => Ok groups
  | matchup :: rest =>
      let? matchup_id := dict_get matchup "matchup_id" JNull in
      if is_None matchup_id then group_matchups rest groups
      else if hashable matchup_id then
        group_matchups rest (group_add matchup_id matchup groups)
      else
        Err (Exc "TypeError"
               ("unhashable type: '" ++ json_type matchup_id ++ "'"))
  end.

(** The lines of the teams of one matchup. *)
Fixpoint team_lines (teams : list json) : outcome string :=
  match teams with
  | [] => Ok ""
  | team :: rest =>
      let? roster_id := field team "roster_id" (JStr "N/A") in
      let? points := field team "points" (JInt 0) in
      let? more := team_lines rest in
      Ok ("  Roster ID: " ++ roster_id ++ ", Points: " ++ points ++ NL ++ more)
  end.

(** The body of the loop over [matchups_dict.items()]. *)
Definition matchup_str (group : json * list json) : outcome string :=
  let? lines := team_lines (snd group) in
  Ok ("Matchup " ++ py_str py (fst group) ++ ":" ++ NL ++ lines).

(** Get matchups for a specific week in a Sleeper league. *)
Definition get_matchups (league_id : string) (week : Z) : outcome string :=
  let url := SLEEPER_API_BASE ++ "/league/" ++ league_id ++ "/matchups/"
               ++ pretty week in
  let? data := make_sleeper_request url in
  if is_None data || negb (isinstance_list data) then
    Ok ("Unable to fetch matchups for league_id: " ++ league_id
          ++ ", week: " ++ pretty week)
  else if (length (items_of data) =? 0)%nat then
    Ok ("No matchups found for league_id: " ++ league_id
          ++ ", week: " ++ pretty week)
  else
    let? matchups_dict := group_matchups (items_of data) [] in
    let? matchups_info := for_each matchup_str matchups_dict in
    Ok (join NL matchups_info).

(** The body of the loop over the drafts. *)
Definition draft_info (draft : json) : outcome string :=
  let? draft_id := field draft "draft_id" (JStr "N/A") in
  let? status := field draft "status" (JStr "N/A") in
  let? type := field draft "type" (JStr "N/A") in
  let? season := field draft "season" (JStr "N/A") in
  let? league_id := field draft "league_id" (JStr "N/A") in
  Ok (NL ++ "Draft ID: " ++ draft_id ++ NL
         ++ "Status: " ++ status ++ NL
         ++ "Type: " ++ type ++ NL
         ++ "Season: " ++ season ++ NL
         ++ "League ID: " ++ league_id ++ NL).

(** Get all Sleeper drafts for a user in a specific sport and season. *)
Definition get_user_drafts (user_id sport season : string) : outcome string :=
  let url := SLEEPER_API_BASE ++ "/user/" ++ user_id ++ "/drafts/"
               ++ sport ++ "/" ++ season in
  let? data := make_sleeper_request url in
  if is_None data || negb (isinstance_list data) then
    Ok ("Unable to fetch drafts for user_id: " ++ user_id)
  else if (length (items_of data) =? 0)%nat then
    Ok ("No drafts found for user_id: " ++ user_id ++ " in "
          ++ sport ++ " " ++ season)
  else
    let? drafts_info := for_each draft_info (items_of data) in
    Ok (join (NL ++ "---" ++ NL) drafts_info).

(** Get detailed information about a specific Sleeper draft. *)
Definition get_draft (draft_id : string) : outcome string :=
  let url := SLEEPER_API_BASE ++ "/draft/" ++ draft_id in
  let? data := make_sleeper_request url in
  if is_None data then
    Ok ("Unable to fetch draft information for draft_id: " ++ draft_id)
  else
    let? did := field data "draft_id" (JStr "N/A") in
    let? status := field data "status" (JStr "N/A") in
    let? type := field data "type" (JStr "N/A") in
    let? season := field data "season" (JStr "N/A") in
    let? league_id := field data "league_id" (JStr "N/A") in
    let? sport := field data "sport" (JStr "N/A") in
    let? settings_r := dict_get data "settings" (JObj []) in
    let? rounds := field settings_r "rounds" (JStr "N/A") in
    let? settings_t := dict_get data "settings" (JObj []) in
    let? teams := field settings_t "teams" (JStr "N/A") in
    Ok (NL ++ "Draft ID: " ++ did ++ NL
           ++ "Status: " ++ status ++ NL
           ++ "Type: " ++ type ++ NL
           ++ "Season: " ++ season ++ NL
           ++ "League ID: " ++ league_id ++ NL
           ++ "Sport: " ++ sport ++ NL
           ++ "Settings:" ++ NL
           ++ "  Rounds: " ++ rounds ++ NL
           ++ "  Teams: " ++ teams ++ NL).

(** The body of the loop over the picks. *)
Definition pick_info (pick : json) : outcome string :=
  let? metadata := dict_get pick "metadata" (JObj []) in
  let? pick_no := field pick "pick_no" (JStr "N/A") in
  let? round := field pick "round" (JStr "N/A") in
  let? draft_slot := field pick "draft_slot" (JStr "N/A") in
  let? first_name := field metadata "first_name" (JStr "") in
  let? last_name := field metadata "last_name" (JStr "Unknown") in
  let? position := field metadata "position" (JStr "N/A") in
  let? team := field metadata "team" (JStr "N/A") in
  let? roster_id := field pick "roster_id" (JStr "N/A") in
  Ok (NL ++ "Pick #" ++ pick_no ++ " (Round " ++ round
         ++ ", Slot " ++ draft_slot ++ "):" ++ NL
         ++ "  Player: " ++ first_name ++ " " ++ last_name ++ NL
         ++ "  Position: " ++ position ++ NL
         ++ "  Team: " ++ team ++ NL
         ++ "  Picked by Roster: " ++ roster_id ++ NL).

(** Get all picks in a Sleeper draft; the first 20 are shown. *)
Definition get_draft_picks (draft_id : string) : outcome string :=
  let url := SLEEPER_API_BASE ++ "/draft/" ++ draft_id ++ "/picks" in
  let? data := make_sleeper_request url in
  if is_None data || negb (isinstance_list data) then
    Ok ("Unable to fetch picks for draft_id: " ++ draft_id)
  else if (length (items_of data) =? 0)%nat then
    Ok ("No picks found for draft_id: " ++ draft_id)
  else
    let? picks_info := for_each pick_info (take 20 (items_of data)) in
    let more :=
      "... and " ++ pretty (Z.of_nat (length (items_of data)) - 20)%Z
         ++ " more picks" in
    let picks_info :=
      if (20 <? length (items_of data))%nat
      then app picks_info [more] else picks_info in
    Ok (join NL picks_info).

(** The lines of the loop over [enumerate(data, 1)], from index [i]. *)
Fixpoint trending_lines (i : Z) (players : list json) : outcome (list string) :=
  match players with
  | [] => Ok []
  | player :: rest =>
      let? player_id := field player "player_id" (JStr "N/A") in
      let? count := field player "count" (JInt 0) in
      let? more := trending_lines (i + 1)%Z rest in
      Ok ((pretty i ++ ". Player ID: " ++ player_id ++ ", Count: " ++ count)
            :: more)
  end.

(** Get trending players on Sleeper based on add or drop activity. *)
Definition get_trending_players (sport trend_type : string)
    (lookback_hours limit : Z) : outcome string :=
  let url := SLEEPER_API_BASE ++ "/players/" ++ sport ++ "/trending/"
               ++ trend_type ++ "?lookback_hours=" ++ pretty lookback_hours
               ++ "&limit=" ++ pretty limit in
  let? data := make_sleeper_request url in
  if is_None data || negb (isinstance_list data) then
    Ok ("Unable to fetch trending " ++ trend_type ++ " players")
  else if (length (items_of data) =? 0)%nat then
    Ok ("No trending " ++ trend_type ++ " players found")
  else
    let header := "Top " ++ pretty limit ++ " Trending " ++ title py trend_type
                    ++ "s (Last " ++ pretty lookback_hours ++ " hours):" ++ NL in
    let? lines := trending_lines 1 (items_of data) in
    Ok (join NL (header :: lines)).

(** The body of the loop over [data.items()]. *)
Definition player_info (item : string * json) : outcome string :=
  let player_id := fst item in
  let player := snd item in
  let? first_name := field player "first_name" (JStr "") in
  let? last_name := field player "last_name" (JStr "Unknown") in
  let? position := field player "position" (JStr "N/A") in
  let? team := field player "team" (JStr "N/A") in
  let? number := field player "number" (JStr "N/A") in
  let? status := field player "status" (JStr "N/A") in
  let? college := field player "college" (JStr "N/A") in
  let? years_exp := field player "years_exp" (JStr "N/A") in
  Ok (NL ++ "Player ID: " ++ player_id ++ NL
         ++ "Name: " ++ first_name ++ " " ++ last_name ++ NL
         ++ "Position: " ++ position ++ NL
         ++ "Team: " ++ team ++ NL
         ++ "Number: " ++ number ++ NL
         ++ "Status: " ++ status ++ NL
         ++ "College: " ++ college ++ NL
         ++ "Years Experience: " ++ years_exp ++ NL).

(** Get all NFL players in a Sleeper league. *)
Definition get_all_players (sport : string) : outcome string :=
  let url := SLEEPER_API_BASE ++ "/players/" ++ sport in
  let? data := make_sleeper_request url in
  if is_None data || negb (isinstance_dict data) then
    Ok ("Unable to fetch players for sport: " ++ sport)
  else if (length (members_of data) =? 0)%nat then
    Ok ("No players found for sport: " ++ sport)
  else
    let total_players := length (members_of data) in
    let header := "Total Players: " ++ pretty total_players ++ NL in
    let? players := for_each player_info (members_of data) in
    Ok (join (NL ++ "---" ++ NL) (header :: players)).

(** Get the current state of the NFL season from Sleeper. *)
Definition get_nfl_state : outcome string :=
  let url := SLEEPER_API_BASE ++ "/state/nfl" in
  let? data := make_sleeper_request url in
  if is_None data then
    Ok "Unable to fetch NFL state information"
  else
    let? season := field data "season" (JStr "N/A") in
    let? season_type := field data "season_type" (JStr "N/A") in
    let? week := field data "week" (JStr "N/A") in
    let? league_season := field data "league_season" (JStr "N/A") in
    let? league_create_season := field data "league_create_season" (JStr "N/A") in
    let? display_week := field data "display_week" (JStr "N/A") in
    Ok (NL ++ "Season: " ++ season ++ NL
           ++ "Season Type: " ++ season_type ++ NL
           ++ "Week: " ++ week ++ NL
           ++ "League Season: " ++ league_season ++ NL
           ++ "League Create Season: " ++ league_create_season ++ NL
           ++ "Display Week: " ++ display_week ++ NL).

End Tools.

(** Whether a string begins with the letter U, as every "Unable to
    fetch" message does. *)
Definition starts_with_U (s : string) : bool :=
  match s with
  | String a _ => Ascii.eqb a "U"%char
  | EmptyString => false
  end.

(** A piece of output that cannot be mistaken for an error message. *)
Definition plain (s : string) : Prop := starts_with_U s = false /\ s <> "".

(** What an f-string shows for [members.get(key, default)]. *)
Definition shown (py : interpreter) (members : list (string * json))
    (key : string) (default : json) : string :=
  py_str py (match assoc key members with
             | Some x => x
             | None => default
             end).

(** The formatted user information for a user object. *)
Definition user_information (py : interpreter) (members : list (string * json))
  : string :=
  NL ++ "User ID: " ++ shown py members "user_id" (JStr "N/A") ++ NL
     ++ "Username: " ++ shown py members "username" (JStr "N/A") ++ NL
     ++ "Display Name: " ++ shown py members "display_name" (JStr "N/A") ++ NL
     ++ "Avatar ID: " ++ shown py members "avatar" (JStr "N/A") ++ NL.

(** A call of one of the server's tools, with its arguments. *)
Inductive tool_call :=
| GetUser (username : string)
| GetUserLeagues (user_id sport season : string)
| GetLeague (league_id : string)
| GetLeagueRosters (league_id : string)
| GetLeagueUsers (league_id : string)
| GetMatchups (league_id : string) (week : Z)
| GetUserDrafts (user_id sport season : string)
| GetDraft (draft_id : string)
| GetDraftPicks (draft_id : string)
| GetTrendingPlayers (sport trend_type : string) (lookback_hours limit : Z)
| GetAllPlayers (sport : string)
| GetNflState.

Definition call (py : interpreter) (client_get : string -> outcome Response)
    (c : tool_call) : outcome string :=
  match c with
  | GetUser username => get_user py client_get username
  | GetUserLeagues user_id sport season =>
      get_user_leagues py client_get user_id sport season
  | GetLeague league_id => get_league py client_get league_id
  | GetLeagueRosters league_id => get_league_rosters py client_get league_id
  | GetLeagueUsers league_id => get_league_users py client_get league_id
  | GetMatchups league_id week => get_matchups py client_get league_id week
  | GetUserDrafts user_id sport season =>
      get_user_drafts py client_get user_id sport season
  | GetDraft draft_id => get_draft py client_get draft_id
  | GetDraftPicks draft_id => get_draft_picks py client_get draft_id
  | GetTrendingPlayers sport trend_type lookback_hours limit =>
      get_trending_players py client_get sport trend_type lookback_hours limit
  | GetAllPlayers sport => get_all_players py client_get sport
  | GetNflState => get_nfl_state py client_get
  end.

(** The URL a call requests. *)
Definition request_url (c : tool_call) : string :=
  match c with
  | GetUser username => SLEEPER_API_BASE ++ "/user/" ++ username
  | GetUserLeagues user_id sport season =>
      SLEEPER_API_BASE ++ "/user/" ++ user_id ++ "/leagues/" ++ sport ++ "/" ++ season
  | GetLeague league_id => SLEEPER_API_BASE ++ "/league/" ++ league_id
  | GetLeagueRosters league_id =>
      SLEEPER_API_BASE ++ "/league/" ++ league_id ++ "/rosters"
  | GetLeagueUsers league_id =>
      SLEEPER_API_BASE ++ "/league/" ++ league_id ++ "/users"
  | GetMatchups league_id week =>
      SLEEPER_API_BASE ++ "/league/" ++ league_id ++ "/matchups/" ++ pretty week
  | GetUserDrafts user_id sport season =>
      SLEEPER_API_BASE ++ "/user/" ++ user_id ++ "/drafts/" ++ sport ++ "/" ++ season
  | GetDraft draft_id => SLEEPER_API_BASE ++ "/draft/" ++ draft_id
  | GetDraftPicks draft_id => SLEEPER_API_BASE ++ "/draft/" ++ draft_id ++ "/picks"
  | GetTrendingPlayers sport trend_type lookback_hours limit =>
      SLEEPER_API_BASE ++ "/players/" ++ sport ++ "/trending/" ++ trend_type
        ++ "?lookback_hours=" ++ pretty lookback_hours ++ "&limit=" ++ pretty limit
  | GetAllPlayers sport => SLEEPER_API_BASE ++ "/players/" ++ sport
  | GetNflState => SLEEPER_API_BASE ++ "/state/nfl"
  end.

(** The string a call returns on its error branch. *)
Definition unable_message (c : tool_call) : string :=
  match c with
  | GetUser username =>
      "Unable to fetch user information for username: " ++ username
  | GetUserLeagues user_id _ _ => "Unable to fetch leagues for user_id: " ++ user_id
  | GetLeague league_id =>
      "Unable to fetch league information for league_id: " ++ league_id
  | GetLeagueRosters league_id => "Unable to fetch rosters for league_id: " ++ league_id
  | GetLeagueUsers league_id => "Unable to fetch users for league_id: " ++ league_id
  | GetMatchups league_id week =>
      "Unable to fetch matchups for league_id: " ++ league_id
        ++ ", week: " ++ pretty week
  | GetUserDrafts user_id _ _ => "Unable to fetch drafts for user_id: " ++ user_id
  | GetDraft draft_id =>
      "Unable to fetch draft information for draft_id: " ++ draft_id
  | GetDraftPicks draft_id => "Unable to fetch picks for draft_id: " ++ draft_id
  | GetTrendingPlayers _ trend_type _ _ =>
      "Unable to fetch trending " ++ trend_type ++ " players"
  | GetAllPlayers sport => "Unable to fetch players for sport: " ++ sport
  | GetNflState => "Unable to fetch NFL state information"
  end.

(** The test that guards the error branch of a call. *)
Definition error_guard (c : tool_call) (data : json) : bool :=
  match c with
  | GetUser _ | GetLeague _ | GetDraft _ | GetNflState => is_None data
  | GetAllPlayers _ => is_None data || negb (isinstance_dict data)
  | _ => is_None data || negb (isinstance_list data)
  end.

(** The string a call returns when the result is the empty list (the
    empty dict for [get_all_players]); the four tools that format one
    object have no such branch. *)
Definition empty_message (c : tool_call) : option string :=
  match c with
  | GetUserLeagues user_id sport season =>
      Some ("No leagues found for user_id: " ++ user_id ++ " in "
              ++ sport ++ " " ++ season)
  | GetLeagueRosters league_id => Some ("No rosters found for league_id: " ++ league_id)
  | GetLeagueUsers league_id => Some ("No users found for league_id: " ++ league_id)
  | GetMatchups league_id week =>
      Some ("No matchups found for league_id: " ++ league_id
              ++ ", week: " ++ pretty week)
  | GetUserDrafts user_id sport season =>
      Some ("No drafts found for user_id: " ++ user_id ++ " in "
              ++ sport ++ " " ++ season)
  | GetDraftPicks draft_id => Some ("No picks found for draft_id: " ++ draft_id)
  | GetTrendingPlayers _ trend_type _ _ =>
      Some ("No trending " ++ trend_type ++ " players found")
  | GetAllPlayers sport => Some ("No players found for sport: " ++ sport)
  | GetUser _ | GetLeague _ | GetDraft _ | GetNflState => None
  end.

Definition empty_result (c : tool_call) : json :=
  match c with
  | GetAllPlayers _ => JObj []
  | _ => JArr []
  end.

(** [m.get('matchup_id')] of a dict. *)
Definition matchup_id_of (m : json) : json :=
  match assoc "matchup_id" (members_of m) with
  | Some v => v
  | None => JNull
  end.

(** What [x.get] raises when [x] is no dict. *)
Definition no_get (x : json) : exc :=
  Exc "AttributeError" ("'" ++ json_type x ++ "' object has no attribute 'get'").

(** A group of [matchups_dict] over the matchups seen so far: its
    teams are among them, in their order, and its key is the id of its
    first team. *)
Definition group_ok (seen : list json) (g : json * list json) : Prop :=
  snd g `sublist_of` seen
  /\ exists t rest, snd g = t :: rest /\ matchup_id_of t = fst g.

(** The values [len] accepts. *)
Definition sized (v : json) : bool :=
  match v with
  | JArr _ | JObj _ | JStr _ => true
  | _ => false
  end.

(** What [len(v)] raises when [v] has no length. *)
Definition no_len (v : json) : exc :=
  Exc "TypeError" ("object of type '" ++ json_type v ++ "' has no len()").

(** [members.get(key, default)] as a value. *)
Definition lookup_or (members : list (string * json)) (key : string) (default : json)
  : json :=
  match assoc key members with
  | Some x => x
  | None => default
  end.

(** A roster the loop of [get_league_rosters] gets through: a dict
    whose [settings], when there, is a dict and whose [players], when
    there, has a length. *)
Definition roster_ok (roster : json) : bool :=
  match roster with
  | JObj members =>
      isinstance_dict (lookup_or members "settings" (JObj []))
      && sized (lookup_or members "players" (JArr []))
  | _ => false
  end.

End SleeperFantasy.

(* ===================================================================== *)
(** ** my_api/my_agent_api.py *)
(* ===================================================================== *)

Module MyAgentApi.

Local Open Scope outcome_scope.

(** Request model for chat queries. *)
Record QueryRequest := { query : string }.

(** The result of an agent run; the agent has the default output
    type, so [output] is a string. *)
Record AgentRunResult := { output : string }.

Section Chat.

(** [myagent.agent.run_sync]. *)
Variable run_sync : string -> outcome AgentRunResult.

(** Send a query to the agent and return the response. *)
Definition chat (request : QueryRequest) : outcome json :=
  try_except_Exception
    (let? response := run_sync (query request) in
     Ok (JObj [("response", JStr (output response))]))
    (fun e => Err (HTTPException 500 (exc_str e))).

End Chat.

(** [GET /]. *)
Definition root : json := JObj [("Hello", JStr "World")].

(** [GET /test]: one fixed question to the agent; the output is
    returned as it is, and nothing is caught. *)
Definition test (run_sync : string -> outcome AgentRunResult) : outcome json :=
  let? response :=
    run_sync "What are the key features of Pydantic AI in a short response." in
  Ok (JStr (output response)).

End MyAgentApi.

(* ===================================================================== *)
(** ** my_ui/ui_main.py *)
(* ===================================================================== *)

Module UiMain.
Import SleeperFantasy.

Local Open Scope outcome_scope.

(** A chat message of the history: role and content.  The content of
    an answer is whatever the API sent under [response]. *)
Record message := { role : string; content : json }.

(** What one run of the script puts on the page, top to bottom. *)
Inductive widget :=
| Title (text : string)
| ChatMessage (role : string) (body : json)
| ChatInput (placeholder : string).

(** [v[key]] for a string key: the value of a dict, [KeyError] when
    the dict has no such key, [TypeError] on anything else (the texts
    are those of CPython 3.11 and later). *)
Definition subscript (v : json) (key : string) : outcome json :=
  match v with
  | JObj members =>
      match assoc key members with
      | Some x => Ok x
      | None => Err (Exc "KeyError" ("'" ++ key ++ "'"))
      end
  | JArr _ => Err (Exc "TypeError" "list indices must be integers or slices, not str")
  | JStr _ => Err (Exc "TypeError" "string indices must be integers, not 'str'")
  | _ => Err (Exc "TypeError" ("'" ++ json_type v ++ "' object is not subscriptable"))
  end.

(** [try: body  except C as e: handler(e)] for the class [C] that
    [caught] recognises. *)
Definition try_except {A} (caught : exc -> bool) (body : outcome A)
    (handler : exc -> outcome A) : outcome A :=
  match body with
  | Ok a => Ok a
  | Err e => if caught e then handler e else Err e
  end.

(** [if prompt:] on what [st.chat_input] returned. *)
Definition submitted (prompt : option string) : option string :=
  match prompt with
  | Some "" => None
  | other => other
  end.

Section Script.

(** [os.getenv("API_URL", "http://localhost:8000")]. *)
Variable API_URL : string.

(** [requests.post(url, json=body, timeout=30)]. *)
Variable post : string -> json -> outcome Response.

(** [isinstance(e, requests.exceptions.RequestException)]. *)
Variable is_RequestException : exc -> bool.

(** Call the agent API: the [try] and its [except]. *)
Definition ask_agent (prompt : string) : outcome json :=
  try_except is_RequestException
    (let? response := post (API_URL ++ "/chat") (JObj [("query", JStr prompt)]) in
     let? _ := raise_for_status response in
     let? body := response_json response in
     subscript body "response")
    (fun e => Ok (JStr ("Error connecting to agent: " ++ exc_str e))).

(** One run of the script: [session] is [st.session_state.messages] if
    the key is there, [prompt] what the chat input returns.  The result
    is how the run ends, the history it leaves and what it has put on
    the page. *)
Definition run_script (session : option (list message)) (prompt : option string)
  : outcome unit * list message * list widget :=
  let messages := match session with Some ms => ms | None => [] end in
  let page :=
    (Title "Echo Bot"
       :: map (fun m => ChatMessage (role m) (content m)) messages
       ++ [ChatInput "Say something"])%list in
  match submitted prompt with
  | None => (Ok tt, messages, page)
  | Some p =>
      let messages := (messages ++ [{| role := "user"; content := JStr p |}])%list in
      let page := (page ++ [ChatMessage "user" (JStr p)])%list in
      match ask_agent p with
      | Ok result =>
          (Ok tt,
           (messages ++ [{| role := "assistant"; content := result |}])%list,
           (page ++ [ChatMessage "assistant" result])%list)
      | Err e => (Err e, messages, page)
      end
  end.

(** The script run once per prompt, each run starting from the history
    the one before left; it stops at the first run that fails. *)
Fixpoint converse (session : option (list message)) (prompts : list string)
  : outcome unit * list message :=
  match prompts with
  | [] => (Ok tt, match session with Some ms => ms | None => [] end)
  | p :: rest =>
      match run_script session (Some p) with
      | (Ok _, messages, _) => converse (Some messages) rest
      | (Err e, messages, _) => (Err e, messages)
      end
  end.

End Script.

Definition user_message (p : string) : message :=
  {| role := "user"; content := JStr p |}.
Definition assistant_message (result : json) : message :=
  {| role := "assistant"; content := result |}.
Definition shown_message (m : message) : widget :=
  ChatMessage (role m) (content m).

(** What the [try] of the page makes of an exception [e] raised in its
    body: the error text as the answer when [e] is of the caught class,
    [e] itself otherwise. *)
Definition shown_or_raised (caught : exc -> bool) (e : exc) (got : outcome json)
  : Prop :=
  if caught e
  then got = Ok (JStr ("Error connecting to agent: " ++ exc_str e))
  else got = Err e.

End UiMain.

(* ===================================================================== *)
(** ** my_api/fastapi-test.py *)
(* ===================================================================== *)

Module FastapiTest.

Record Item := { text : string; is_done : bool }.

(** [l[i]]: a negative index counts from the end; out of range is
    [IndexError]. *)
Definition list_index {A} (l : list A) (i : Z) : outcome A :=
  let j := if (i <? 0)%Z then (i + Z.of_nat (length l))%Z else i in
  if (j <? 0)%Z then Err (Exc "IndexError" "list index out of range")
  else match l !! Z.to_nat j with
       | Some x => Ok x
       | None => Err (Exc "IndexError" "list index out of range")
       end.

(** [l[0:stop]]: a negative [stop] counts from the end; past either
    end the slice is cut, never an error. *)
Definition slice_to {A} (l : list A) (stop : Z) : list A :=
  if (stop <? 0)%Z
  then take (Z.to_nat (Z.of_nat (length l) + stop)) l
  else take (Z.to_nat stop) l.

(** An endpoint: it reads and updates the module's list [items]. *)
Definition endpoint (A : Type) : Type := list Item -> outcome A * list Item.

Definition create_item (item : Item) : endpoint (list Item) :=
  fun items => (Ok (items ++ [item])%list, (items ++ [item])%list).

Definition list_items (limit : Z) : endpoint (list Item) :=
  fun items => (Ok (slice_to items limit), items).

Definition clear_items : endpoint string :=
  fun items => (Ok "Items list cleared successfully", []).

Definition get_item (item_id : Z) : endpoint Item :=
  fun items =>
    if (item_id <? Z.of_nat (length items))%Z && (item_id >=? 0)%Z
    then (list_index items item_id, items)
    else (Err (HTTPException 404
                 ("Item id " ++ pretty item_id ++ " out of range (valid range [0-"
                    ++ pretty (length items) ++ "])")),
          items).

End FastapiTest.

(* ===================================================================== *)
(** ** my-mcp/espn_fantasy.py: reading the cookies *)
(* ===================================================================== *)

Module EspnFantasy.
Local Open Scope outcome_scope.

(** [c in s] for a one-character [c]. *)
Fixpoint has_char (c : ascii) (s : string) : bool :=
  match s with
  | EmptyString => false
  | String a s' => Ascii.eqb a c || has_char c s'
  end.

(** A literal of a pattern matched at the start of [s]: what follows
    it. *)
Fixpoint strip_prefix (p s : string) : option string :=
  match p with
  | EmptyString => Some s
  | String a p' =>
      match s with
      | String b s' => if Ascii.eqb b a then strip_prefix p' s' else None
      | EmptyString => None
      end
  end.

(** The greedy [[^c]*] at the start of [s]: the longest run of
    characters other than [c], and what follows it. *)
Fixpoint span_not (c : ascii) (s : string) : string * string :=
  match s with
  | EmptyString => (EmptyString, EmptyString)
  | String a s' =>
      if Ascii.eqb a c then (EmptyString, s)
      else let (run, rest) := span_not c s' in (String a run, rest)
  end.

(** The pattern [espn_s2=([^;]+)] matched at the start of [s]: its
    group 1. *)
Definition match_espn_s2 (s : string) : option string :=
  match strip_prefix "espn_s2=" s with
  | Some t =>
      match span_not ";" t with
      | (EmptyString, _) => None
      | (run, _) => Some run
      end
  | None => None
  end.

(** The pattern [SWID=(\{[^}]+\})] matched at the start of [s]: its
    group 1.  The greedy run stops at the first closing brace or at the
    end of [s]; giving back characters of the run cannot help, for the
    character after a shorter run is no closing brace. *)
Definition match_SWID (s : string) : option string :=
  match strip_prefix "SWID={" s with
  | Some t =>
      match span_not "}" t with
      | (EmptyString, _) => None
      | (run, String a _) => if Ascii.eqb a "}" then Some ("{" ++ run ++ "}") else None
      | (_, EmptyString) => None
      end
  | None => None
  end.

(** [re.search]: the match at the leftmost position that has one. *)
Fixpoint search (m : string -> option string) (s : string) : option string :=
  match m s with
  | Some g => Some g
  | None =>
      match s with
      | EmptyString => None
      | String _ s' => search m s'
      end
  end.

(** [x] or [None] as a value. *)
Definition group_or_None (g : option string) : json :=
  match g with
  | Some x => JStr x
  | None => JNull
  end.

Definition is_FileNotFoundError (e : exc) : bool :=
  match e with
  | Exc cls _ => String.eqb cls "FileNotFoundError"
  | _ => false
  end.

Section Cookies.

(** [open(filepath, 'r')] and [f.read()]: the content of the file, or
    what they raise. *)
Variable read_file : string -> outcome string.

Definition parse_cookies_from_file (filepath : string) : outcome json :=
  match read_file filepath with
  | Ok content =>
      let espn_s2 := search match_espn_s2 content in
      let swid := search match_SWID content in
      Ok (JObj [("espn_s2", group_or_None espn_s2); ("swid", group_or_None swid)])
  | Err e =>
      if is_FileNotFoundError e
      then Ok (JObj [("espn_s2", JNull); ("swid", JNull);
                     ("error", JStr ("File " ++ filepath ++ " not found"))])
      else if is_Exception e
      then Ok (JObj [("espn_s2", JNull); ("swid", JNull); ("error", JStr (exc_str e))])
      else Err e
  end.

End Cookies.

(** [if n:] for an optional integer: [None] and 0 are false. *)
Definition truthy (n : option Z) : bool :=
  match n with
  | Some k => negb (k =? 0)%Z
  | None => false
  end.

(** [if n: params[key] = n], for a key that [params] has not yet. *)
Definition set_if (key : string) (n : option Z) (params : list (string * json))
  : list (string * json) :=
  match n with
  | Some k => if truthy n then (params ++ [(key, JInt k)])%list else params
  | None => params
  end.

Section Tools.

(** [make_request(params)]: the answer of the league endpoint to the
    query [params], or what the request raises. *)
Variable make_request : list (string * json) -> outcome json.

Definition get_league_info : outcome json :=
  make_request [("view", JStr "mSettings")].

Definition get_teams : outcome json :=
  let? data := make_request [("view", JStr "mTeam")] in
  SleeperFantasy.dict_get data "teams" (JArr []).


Definition get_matchups (week : option Z) : outcome json :=
  let? data := make_request (set_if "scoringPeriodId" week [("view", JStr "mMatchup")]) in
  SleeperFantasy.dict_get data "schedule" (JArr []).




End Tools.

End EspnFantasy.

(* ===================================================================== *)
(** ** Scenarios *)
(* ===================================================================== *)

Module Scenarios.
Import McpWithDeps Containers.

(** A store holding the integer 42, an empty dictionary and [None]. *)
Definition demo_world : world :=
  {| heap := [OInt 42; ODict ∅; ONone; OInt 1]; notifications := [] |}.



(** A registry whose one tool raises. *)
Definition failing_tools : gmap string tool :=
  {[ "boom" := fun _ _ => raise (Exc "RuntimeError" "boom") ]}.

Import SleeperFantasy MyAgentApi.

(** Built-ins for the scenarios below, none of which shows a float, a
    list or a dict, groups by a key, or title-cases a word. *)
Definition demo_interpreter : interpreter :=
  {| repr_value := fun v => match v with JFloat r => r | _ => "..." end;
     key_eq := fun a b =>
                 match a, b with
                 | JInt x, JInt y => Z.eqb x y
                 | JStr x, JStr y => String.eqb x y
                 | _, _ => false
                 end;
     title := fun s => s;
     len_str := String.length |}.

(** An upstream that answers every request with status 200 and the
    body [v]. *)
Definition answers (v : json) : string -> outcome Response :=
  fun _ => Ok {| raise_for_status := Ok tt; response_json := Ok v |}.

(** An upstream whose request times out, and one whose request is
    cancelled while it is awaited. *)
Definition times_out : string -> outcome Response :=
  fun _ => Err (Exc "ConnectTimeout" "timed out").
Definition cancelled : string -> outcome Response :=
  fun _ => Err (BaseExc "CancelledError" "").

(** An agent run that is interrupted, one that fails, one that
    answers. *)
Definition interrupted_agent : string -> outcome AgentRunResult :=
  fun _ => Err (BaseExc "KeyboardInterrupt" "").
Definition failing_agent : string -> outcome AgentRunResult :=
  fun _ => Err (Exc "UsageLimitExceeded" "request limit exceeded").
Definition echoing_agent : string -> outcome AgentRunResult :=
  fun q => Ok {| output := "You said: " ++ q |}.

(** Four matchup entries: two of matchup 1, one of matchup 2, one
    without an id. *)
Definition demo_matchups : list json :=
  [ JObj [("matchup_id", JInt 1); ("roster_id", JInt 3)];
    JObj [("matchup_id", JInt 2); ("roster_id", JInt 4)];
    JObj [("roster_id", JInt 9)];
    JObj [("matchup_id", JInt 1); ("roster_id", JInt 5)] ].

(** The classes of [requests.exceptions] that the scenarios meet: a
    refused connection, a timeout, an error status. *)
Definition demo_is_RequestException (e : exc) : bool :=
  match e with
  | Exc cls _ =>
      bool_decide (cls ∈ ["RequestException"; "ConnectionError"; "Timeout"; "HTTPError"])
  | _ => false
  end.

(** An API that answers every post with status 200 and [body], and one
    that refuses the connection. *)
Definition api_answers (body : json) : string -> json -> outcome Response :=
  fun _ _ => Ok {| raise_for_status := Ok tt; response_json := Ok body |}.
Definition api_down : string -> json -> outcome Response :=
  fun _ _ => Err (Exc "ConnectionError" "Connection refused").

(** An upstream that knows one URL only, which it answers with the
    body [v]; every other request fails to connect. *)
Definition answers_only (url : string) (v : json) : string -> outcome Response :=
  fun u => if String.eqb u url
           then Ok {| raise_for_status := Ok tt; response_json := Ok v |}
           else Err (Exc "ConnectError" "All connection attempts failed").

End Scenarios.

(* ===================================================================== *)
(** * Properties *)
(* ===================================================================== *)

(** ** The store *)

Section StoreFacts.

Lemma lookup_store_old (o : obj) (w : world) (l : loc) (o' : obj) :
  heap w !! l = Some o' -> heap (store o w) !! l = Some o'.
Proof. intros Hl. simpl. by apply lookup_app_l_Some. Qed.

Lemma lookup_store_new (o : obj) (w : world) :
  heap (store o w) !! length (heap w) = Some o.
Proof. simpl. by rewrite lookup_app_r, Nat.sub_diag by lia. Qed.

Lemma lookup_fresh (w : world) : heap w !! length (heap w) = None.
Proof. by apply lookup_ge_None_2. Qed.

Lemma length_store (o : obj) (w : world) :
  length (heap (store o w)) = S (length (heap w)).
Proof. simpl. rewrite length_app. simpl. lia. Qed.

Lemma attrs_of_object (h : list obj) (l : loc) cls (a : gmap string loc) :
  h !! l = Some (OObject cls a) -> attrs_of h l = a.
Proof. intros Hl. unfold attrs_of. by rewrite Hl. Qed.

Lemma hasattr_true (h : list obj) (l : loc) (name : string) :
  hasattr h l name = true <-> is_Some (attrs_of h l !! name).
Proof. unfold hasattr. by rewrite bool_decide_eq_true. Qed.

Lemma hasattr_false (h : list obj) (l : loc) (name : string) :
  hasattr h l name = false <-> attrs_of h l !! name = None.
Proof.
  unfold hasattr. rewrite bool_decide_eq_false, <- eq_None_not_Some. done.
Qed.

End StoreFacts.

(** ** The echo tool *)

Module EchoProps.
Import McpWithDeps.

Abbreviation logged := (notify "info" "This is an info message").

Lemma echo_deps_present (ctx : Context) (w : world) (d : loc) :
  attrs_of (heap w) (meta (request_context ctx)) !! "deps" = Some d ->
  echo_deps ctx w
  = (Ok (S (length (heap w))),
     store (ODict {[ "echo" := length (heap w); "deps" := d ]})
           (store (OStr "This is an echo message") (logged w))).
Proof.
  intros Hd. unfold echo_deps, bind, info, getattr. simpl heap.
  rewrite Hd. unfold alloc. simpl heap. rewrite length_app. simpl length.
  by rewrite Nat.add_1_r.
Qed.

Lemma echo_deps_missing (ctx : Context) (w : world) :
  attrs_of (heap w) (meta (request_context ctx)) !! "deps" = None ->
  echo_deps ctx w
  = (Err (Exc "AttributeError"
            ("'" ++ class_of (heap w) (meta (request_context ctx))
                 ++ "' object has no attribute 'deps'")),
     logged w).
Proof.
  intros Hd. unfold echo_deps, bind, info, getattr. simpl heap.
  by rewrite Hd.
Qed.

(** C10.  The read of [deps] is unguarded: the tool returns normally
    exactly when the request metadata has a [deps] attribute, and
    raises [AttributeError], with no default result, when it has not
    (the metadata being [None] or an object without that attribute). *)
Theorem echo_deps_requires_deps (ctx : Context) (w : world) :
  (is_Ok (echo_deps ctx w).1 = true
   <-> hasattr (heap w) (meta (request_context ctx)) "deps" = true)
  /\ if hasattr (heap w) (meta (request_context ctx)) "deps"
     then exists (result echo d : loc),
            attrs_of (heap w) (meta (request_context ctx)) !! "deps" = Some d
            /\ (echo_deps ctx w).1 = Ok result
            /\ heap (echo_deps ctx w).2 !! result
               = Some (ODict {[ "echo" := echo; "deps" := d ]})
     else exists msg : string,
            (echo_deps ctx w).1 = Err (Exc "AttributeError" msg).
Proof.
  destruct (hasattr (heap w) (meta (request_context ctx)) "deps") eqn:Hh.
  - apply hasattr_true in Hh as [d Hd].
    rewrite (echo_deps_present ctx w d Hd). cbn [fst snd is_Ok]. split; [done|].
    exists (S (length (heap w))), (length (heap w)), d.
    split; [done|]. split; [done|].
    change (length (heap w)) with (length (heap (logged w))).
    rewrite <- (length_store (OStr "This is an echo message") (logged w)).
    apply lookup_store_new.
  - apply hasattr_false in Hh.
    rewrite (echo_deps_missing ctx w Hh). cbn [fst snd is_Ok].
    split; [done|]. eauto.
Qed.

End EchoProps.

(** ** The dispatcher *)

Module DispatcherProps.
Import McpWithDeps Containers Mechanism Scenarios EchoProps.

Lemma run_direct_call_tool (mech : mechanism) name args metadata w :
  run mech (direct_call_tool name args metadata) w = mech name args metadata w.
Proof.
  simpl. destruct (mech name args metadata w) as [[v|e] w']; reflexivity.
Qed.

Lemma run_process_tool_call (mech : mechanism) ctx call_tool name args w :
  run mech (process_tool_call ctx call_tool name args) w
  = run mech (call_tool name args (length (heap w))) (store (envelope ctx) w).
Proof. reflexivity. Qed.

Lemma run_dispatch (mech : mechanism) ctx name args w :
  run mech (process_tool_call ctx direct_call_tool name args) w
  = mech name args (length (heap w)) (store (envelope ctx) w).
Proof. by rewrite run_process_tool_call, run_direct_call_tool. Qed.

Lemma request_meta_envelope ctx w :
  request_meta (length (heap w)) (store (envelope ctx) w)
  = (Ok (S (length (heap w))),
     store (OObject "Meta" {[ "deps" := deps ctx ]}) (store (envelope ctx) w)).
Proof.
  unfold request_meta. rewrite lookup_store_new. unfold envelope, alloc.
  by rewrite length_store.
Qed.

(** C1.  Whatever [call_tool] the processor is given, it calls it with
    the name and the arguments it received and the envelope, and the
    outcome of that call is its own outcome; so for a registered tool
    dispatch returns exactly what the tool returns when invoked
    directly with the same arguments and with the session context
    readable as [deps] on its request metadata. *)
Theorem dispatch_returns_tool_result
    (registry : gmap string tool) (name : string) (t : tool)
    (ctx : RunContext) (args : loc) (w : world) :
  registry !! name = Some t ->
  (forall (call_tool : CallToolFunc) (mech : mechanism),
      run mech (process_tool_call ctx call_tool name args) w
      = run mech (call_tool name args (length (heap w))) (store (envelope ctx) w))
  /\ (forall mech : mechanism,
        run mech (process_tool_call ctx direct_call_tool name args) w
        = mech name args (length (heap w)) (store (envelope ctx) w))
  /\ exists (tool_ctx : Context) (w1 : world),
      attrs_of (heap w1) (meta (request_context tool_ctx)) !! "deps" = Some (deps ctx)
      /\ (forall l o, heap w !! l = Some o -> heap w1 !! l = Some o)
      /\ run (tool_mechanism registry)
             (process_tool_call ctx direct_call_tool name args) w
         = t tool_ctx args w1.
Proof.
  intros Hreg. split; [intros call_tool mech; apply run_process_tool_call|].
  split; [intros mech; apply run_dispatch|].
  exists {| request_context := {| meta := S (length (heap w)) |} |},
         (store (OObject "Meta" {[ "deps" := deps ctx ]}) (store (envelope ctx) w)).
  split; [|split].
  - simpl meta.
    rewrite (attrs_of_object _ _ "Meta" {[ "deps" := deps ctx ]}); [reflexivity|].
    rewrite <- (length_store (envelope ctx) w). apply lookup_store_new.
  - intros l o Hl. by do 2 apply lookup_store_old.
  - rewrite run_dispatch. unfold tool_mechanism. rewrite Hreg.
    unfold invoke, bind. rewrite request_meta_envelope. reflexivity.
Qed.

Lemma dispatch_returns_tool_result_witness :
  tools !! "echo_deps" = Some (fun ctx _ => echo_deps ctx)
  /\ exists (tool_ctx : Context) (w1 : world),
      attrs_of (heap w1) (meta (request_context tool_ctx)) !! "deps" = Some 0
      /\ (forall l o, heap demo_world !! l = Some o -> heap w1 !! l = Some o)
      /\ run (tool_mechanism tools)
             (process_tool_call {| deps := 0 |} direct_call_tool "echo_deps" 1)
             demo_world
         = echo_deps tool_ctx w1.
Proof.
  split; [reflexivity|].
  exact (proj2 (proj2 (dispatch_returns_tool_result tools "echo_deps" _
                         {| deps := 0 |} 1 demo_world eq_refl))).
Defined.

(** C2.  Whatever the session context is (the [None] object
    included) and whatever [call_tool] is, the processor hands
    [call_tool] a fresh envelope whose only entry binds [deps] to the
    very reference the caller supplied; building it adds that one
    object to the store and leaves every existing object, the context
    among them, as it was; and the envelope is the same whatever the
    store holds, so the context is never looked into. *)
Theorem envelope_carries_session_context
    (ctx : RunContext) (call_tool : CallToolFunc) (name : string) (args : loc)
    (w : world) :
  exists (metadata : loc) (w1 : world),
    advance (process_tool_call ctx call_tool name args) w
    = advance (call_tool name args metadata) w1
    /\ advance (process_tool_call ctx direct_call_tool name args) w
       = (Waiting name args metadata await_result, w1)
    /\ heap w !! metadata = None
    /\ (exists entries, heap w1 !! metadata = Some (ODict entries)
                        /\ entries !! "deps" = Some (deps ctx)
                        /\ dom entries = {[ "deps" ]})
    /\ heap w1 = (heap w ++ [envelope ctx])%list
    /\ (forall l o, heap w !! l = Some o -> heap w1 !! l = Some o)
    /\ notifications w1 = notifications w
    /\ (forall w2 : world,
          length (heap w2) = length (heap w) ->
          advance (process_tool_call ctx call_tool name args) w2
          = advance (call_tool name args metadata) (store (envelope ctx) w2)).
Proof.
  exists (length (heap w)), (store (envelope ctx) w).
  split; [reflexivity|]. split; [reflexivity|].
  split; [apply lookup_fresh|]. split.
  - exists {[ "deps" := deps ctx ]}. split; [apply lookup_store_new|].
    split; [reflexivity|]. by rewrite dom_singleton_L.
  - split; [reflexivity|]. split; [|split; [reflexivity|]].
    + intros l o Hl. by apply lookup_store_old.
    + intros w2 Hlen. simpl. by rewrite Hlen.
Qed.

(** C3.  Dispatching [echo_deps] with the empty arguments mapping and
    the session context 42 gives a dictionary with exactly the entries
    [echo], bound to the string "This is an echo message", and [deps],
    bound to the caller's 42; the log notification the tool sends
    first shows in the notifications and nowhere in the result. *)
Theorem dispatch_echo_deps (ctx : RunContext) (args : loc) (w : world) :
  heap w !! deps ctx = Some (OInt 42) ->
  heap w !! args = Some (ODict ∅) ->
  exists (result echo : loc) (w' : world),
    run (tool_mechanism tools)
        (process_tool_call ctx direct_call_tool "echo_deps" args) w
    = (Ok result, w')
    /\ heap w' !! result = Some (ODict {[ "echo" := echo; "deps" := deps ctx ]})
    /\ heap w' !! echo = Some (OStr "This is an echo message")
    /\ heap w' !! deps ctx = Some (OInt 42)
    /\ notifications w'
       = (notifications w ++ [("info", "This is an info message")])%list.
Proof.
  intros Hdeps _.
  rewrite run_dispatch. unfold tool_mechanism.
  change (tools !! "echo_deps") with (Some (fun (c : Context) (_ : loc) => echo_deps c)).
  unfold invoke, bind. rewrite request_meta_envelope.
  set (w1 := store (OObject "Meta" {[ "deps" := deps ctx ]}) (store (envelope ctx) w)).
  assert (Hattr : attrs_of (heap w1) (S (length (heap w))) !! "deps" = Some (deps ctx)).
  { rewrite (attrs_of_object _ _ "Meta" {[ "deps" := deps ctx ]}); [reflexivity|].
    subst w1. rewrite <- (length_store (envelope ctx) w). apply lookup_store_new. }
  rewrite (echo_deps_present {| request_context := {| meta := S (length (heap w)) |} |}
             w1 (deps ctx) Hattr).
  set (w2 := store (OStr "This is an echo message") (logged w1)).
  exists (S (length (heap w1))), (length (heap w1)), (store (ODict {[ "echo" := length (heap w1); "deps" := deps ctx ]}) w2).
  split; [reflexivity|]. split; [|split; [|split]].
  - change (length (heap w1)) with (length (heap (logged w1))).
    rewrite <- (length_store (OStr "This is an echo message") (logged w1)).
    apply lookup_store_new.
  - apply lookup_store_old. apply (lookup_store_new _ (logged w1)).
  - do 2 apply lookup_store_old. change (heap (logged w1)) with (heap w1).
    by do 2 apply lookup_store_old.
  - reflexivity.
Qed.

Lemma dispatch_echo_deps_witness :
  exists (result echo : loc) (w' : world),
    run (tool_mechanism tools)
        (process_tool_call {| deps := 0 |} direct_call_tool "echo_deps" 1) demo_world
    = (Ok result, w')
    /\ heap w' !! result = Some (ODict {[ "echo" := echo; "deps" := 0 ]})
    /\ heap w' !! echo = Some (OStr "This is an echo message")
    /\ heap w' !! 0 = Some (OInt 42)
    /\ notifications w' = [("info", "This is an info message")].
Proof.
  exact (dispatch_echo_deps {| deps := 0 |} 1 demo_world eq_refl eq_refl).
Defined.

Lemma advance_dispatch (ctx : RunContext) (name : string) (args : loc) (w : world) :
  advance (process_tool_call ctx direct_call_tool name args) w
  = (Waiting name args (length (heap w)) await_result, store (envelope ctx) w).
Proof. reflexivity. Qed.

Lemma advance_await_result (r : outcome loc) (w : world) :
  advance (await_result r) w = (Done r, w).
Proof. by destruct r. Qed.

(** C4.  When the name resolves to no registered tool, dispatch fails
    with [ToolNotFound]: the failure is the outcome the caller gets,
    the mechanism was asked once, and the coroutine is finished with
    that failure as soon as it is handed back. *)
Theorem dispatch_unknown_tool
    (registry : gmap string tool) (name : string)
    (ctx : RunContext) (args : loc) (w : world) :
  registry !! name = None ->
  run (tool_mechanism registry)
      (process_tool_call ctx direct_call_tool name args) w
  = (Err (Exc "ToolNotFound" name), store (envelope ctx) w)
  /\ exists (metadata : loc) (k : outcome loc -> coro loc),
      advance (process_tool_call ctx direct_call_tool name args) w
      = (Waiting name args metadata k, store (envelope ctx) w)
      /\ forall w', advance (k (Err (Exc "ToolNotFound" name))) w'
                    = (Done (Err (Exc "ToolNotFound" name)), w').
Proof.
  intros Hreg. split.
  - rewrite run_dispatch. unfold tool_mechanism. by rewrite Hreg.
  - exists (length (heap w)), await_result. split; [apply advance_dispatch|].
    intros w'. apply advance_await_result.
Qed.

Lemma dispatch_unknown_tool_witness :
  tools !! "unknown_tool" = None
  /\ run (tool_mechanism tools)
         (process_tool_call {| deps := 2 |} direct_call_tool "unknown_tool" 1)
         demo_world
     = (Err (Exc "ToolNotFound" "unknown_tool"),
        store (envelope {| deps := 2 |}) demo_world).
Proof.
  split; [reflexivity|].
  exact (proj1 (dispatch_unknown_tool tools "unknown_tool"
                  {| deps := 2 |} 1 demo_world eq_refl)).
Defined.

(** C5.  When the call the processor makes fails, in the mechanism or
    in the tool it runs, the processor fails with that very exception
    and leaves the store as that single call left it; with the
    server's [call_tool] the failure is handed to the awaiting
    coroutine, which finishes with it at once: no second call, no
    recovery value, no other exception around it. *)
Theorem dispatch_propagates_failure
    (mech : mechanism) (ctx : RunContext) (call_tool : CallToolFunc)
    (name : string) (args : loc) (w : world) (e : exc) (w' : world) :
  run mech (call_tool name args (length (heap w))) (store (envelope ctx) w)
  = (Err e, w') ->
  run mech (process_tool_call ctx call_tool name args) w = (Err e, w')
  /\ exists k : outcome loc -> coro loc,
      advance (process_tool_call ctx direct_call_tool name args) w
      = (Waiting name args (length (heap w)) k, store (envelope ctx) w)
      /\ forall w0, advance (k (Err e)) w0 = (Done (Err e), w0).
Proof.
  intros Hfail. split.
  - by rewrite run_process_tool_call.
  - exists await_result. split; [apply advance_dispatch|].
    intros w0. apply advance_await_result.
Qed.

Lemma dispatch_propagates_failure_witness :
  exists w' : world,
    run (tool_mechanism failing_tools)
        (process_tool_call {| deps := 0 |} direct_call_tool "boom" 1) demo_world
    = (Err (Exc "RuntimeError" "boom"), w').
Proof.
  eexists.
  refine (proj1 (dispatch_propagates_failure (tool_mechanism failing_tools)
                   {| deps := 0 |} direct_call_tool "boom" 1 demo_world
                   (Exc "RuntimeError" "boom") _ _)).
  reflexivity.
Defined.

End DispatcherProps.

(** ** Dispatches sharing an event loop *)

Module PoolProps.
Import Containers Scenarios DispatcherProps.







(** Alone on the loop, a dispatch answered by [mech] ends as [run]
    says, having made the one call. *)
Lemma run_matches_schedule (mech : mechanism) (inv : invocation) (w : world) :
  let metadata := length (heap w) in
  let w1 := store (envelope (inv_ctx inv)) w in
  let answer := mech (inv_name inv) (inv_args inv) metadata w1 in
  run mech (dispatch inv) w = answer
  /\ schedule [Run 0; Deliver 0 answer.1 answer.2; Run 0] (start w [inv])
     = Some {| pool_world := answer.2;
               pool_tasks := [Done answer.1];
               pool_trace := [ {| ev_task := 0;
                                  ev_name := inv_name inv;
                                  ev_args := inv_args inv;
                                  ev_metadata := metadata;
                                  ev_envelope := Some (envelope (inv_ctx inv)) |} ] |}.
Proof.
  intros metadata w1 answer. split; [apply run_dispatch|].
  cbn [schedule start do_action fmap list_fmap pool_tasks pool_world pool_trace
       lookup list_lookup].
  unfold dispatch at 1. rewrite advance_dispatch.
  cbn [schedule do_action pool_tasks pool_world pool_trace lookup list_lookup
       insert list_insert issued app].
  rewrite advance_await_result.
  cbn [schedule pool_tasks pool_world pool_trace insert list_insert issued app].
  repeat f_equal. apply (lookup_store_new (envelope (inv_ctx inv)) w).
Qed.





End PoolProps.

(** ** The chat endpoint *)

Module ApiProps.
Import MyAgentApi Scenarios.

Example chat_of_answer :
  chat echoing_agent {| query := "hello" |}
  = Ok (JObj [("response", JStr "You said: hello")]).
Proof. reflexivity. Qed.

Example chat_of_failure :
  chat failing_agent {| query := "hello" |}
  = Err (HTTPException 500 "request limit exceeded").
Proof. reflexivity. Qed.

(** The reading of C7 as it stands fails: an agent run interrupted by
    [KeyboardInterrupt], which is no [Exception], ends [chat] with
    that interrupt, which is neither the response nor a 500. *)
Lemma chat_third_outcome :
  chat interrupted_agent {| query := "hello" |}
  = Err (BaseExc "KeyboardInterrupt" "")
  /\ (forall out, chat interrupted_agent {| query := "hello" |}
                  <> Ok (JObj [("response", JStr out)]))
  /\ (forall detail, chat interrupted_agent {| query := "hello" |}
                     <> Err (HTTPException 500 detail)).
Proof. repeat split; intros; discriminate. Qed.

(** C7, amended.  For every query, [chat] returns the body
    [{"response": output}] with the output of the agent when the run
    succeeds; fails with [HTTPException] of status 500 whose detail is
    [str(e)] when the run raises an [e] that is an [Exception]; and
    lets any other [e] through as it is.  Nothing else happens. *)
Theorem chat_outcomes
    (run_sync : string -> outcome AgentRunResult) (request : QueryRequest) :
  match run_sync (query request) with
  | Ok response =>
      chat run_sync request = Ok (JObj [("response", JStr (output response))])
  | Err e =>
      if is_Exception e
      then chat run_sync request = Err (HTTPException 500 (exc_str e))
      else chat run_sync request = Err e
  end.
Proof.
  unfold chat. destruct (run_sync (query request)) as [response|e]; simpl.
  - reflexivity.
  - by destruct (is_Exception e).
Qed.

End ApiProps.

(** ** The Sleeper tools *)

Module SleeperProps.
Import SleeperFantasy Scenarios.
Local Open Scope outcome_scope.

Ltac outcome_inv H :=
  repeat match type of H with
         | obind ?m _ = Ok _ =>
             let E := fresh "E" in
             destruct m eqn:E; cbn [obind] in H; [|discriminate H]
         end.

Lemma plain_cons (a : Ascii.ascii) (t : string) :
  Ascii.eqb a "U"%char = false -> plain (String a t).
Proof. intros Ha. split; [exact Ha|discriminate]. Qed.

Lemma join_head (sep y : string) (ys : list string) :
  plain y -> starts_with_U (join sep (y :: ys)) = false.
Proof.
  intros [Hy Hne]. destruct y as [|a y]; [done|].
  destruct ys; exact Hy.
Qed.

Lemma join_plain (sep : string) (l : list string) :
  Forall plain l -> starts_with_U (join sep l) = false.
Proof. intros [|y ys Hy _]; [reflexivity|by apply join_head]. Qed.

Lemma for_each_Forall {A B} (f : A -> outcome B) (P : B -> Prop) (l : list A) out :
  (forall x y, f x = Ok y -> P y) -> for_each f l = Ok out -> Forall P out.
Proof.
  intros Hf. revert out. induction l as [|x l IH]; intros out H; simpl in H.
  - injection H as <-. constructor.
  - outcome_inv H. injection H as <-. constructor; eauto.
Qed.

Section Tools.

Variable py : interpreter.
Variable client_get : string -> outcome Response.

Lemma make_sleeper_request_cases (url : string) :
  match fetch client_get url with
  | Ok v => make_sleeper_request client_get url = Ok v
  | Err e =>
      if is_Exception e
      then make_sleeper_request client_get url = Ok JNull
      else make_sleeper_request client_get url = Err e
  end.
Proof.
  unfold make_sleeper_request.
  destruct (fetch client_get url) as [v|e]; simpl; [done|].
  by destruct (is_Exception e).
Qed.

Lemma league_info_plain x y : league_info py x = Ok y -> plain y.
Proof.
  unfold league_info. intros H. outcome_inv H. injection H as <-.
  by apply plain_cons.
Qed.

Lemma roster_info_plain x y : roster_info py x = Ok y -> plain y.
Proof.
  unfold roster_info. intros H. outcome_inv H. injection H as <-.
  by apply plain_cons.
Qed.

Lemma user_info_plain x y : user_info py x = Ok y -> plain y.
Proof.
  unfold user_info. intros H. outcome_inv H. injection H as <-.
  by apply plain_cons.
Qed.

Lemma draft_info_plain x y : draft_info py x = Ok y -> plain y.
Proof.
  unfold draft_info. intros H. outcome_inv H. injection H as <-.
  by apply plain_cons.
Qed.

Lemma pick_info_plain x y : pick_info py x = Ok y -> plain y.
Proof.
  unfold pick_info. intros H. outcome_inv H. injection H as <-.
  by apply plain_cons.
Qed.

Lemma matchup_str_plain x y : matchup_str py x = Ok y -> plain y.
Proof.
  unfold matchup_str. intros H. outcome_inv H. injection H as <-.
  by apply plain_cons.
Qed.

Lemma unable_message_starts (c : tool_call) :
  starts_with_U (unable_message c) = true.
Proof. by destruct c. Qed.

(** Every tool is the request, the guarded error branch, and a
    rest whose output is never an error message. *)
Lemma call_shape (c : tool_call) :
  exists success : json -> outcome string,
    call py client_get c
    = (let? data := make_sleeper_request client_get (request_url c) in
       if error_guard c data then Ok (unable_message c) else success data)
    /\ forall data s,
        error_guard c data = false -> success data = Ok s ->
        starts_with_U s = false.
Proof.
  destruct c; eexists; (split; [reflexivity|]); cbv beta; intros data s Hg H.
  - (* get_user *)
    outcome_inv H. by injection H as <-.
  - (* get_user_leagues *)
    destruct (_ =? _)%nat; [by injection H as <-|].
    outcome_inv H. injection H as <-.
    eapply join_plain, for_each_Forall; [apply league_info_plain|done].
  - (* get_league *)
    outcome_inv H. by injection H as <-.
  - (* get_league_rosters *)
    destruct (_ =? _)%nat; [by injection H as <-|].
    outcome_inv H. injection H as <-.
    eapply join_plain, for_each_Forall; [apply roster_info_plain|done].
  - (* get_league_users *)
    destruct (_ =? _)%nat; [by injection H as <-|].
    outcome_inv H. injection H as <-.
    eapply join_plain, for_each_Forall; [apply user_info_plain|done].
  - (* get_matchups *)
    destruct (_ =? _)%nat; [by injection H as <-|].
    outcome_inv H. injection H as <-.
    eapply join_plain, for_each_Forall; [apply matchup_str_plain|done].
  - (* get_user_drafts *)
    destruct (_ =? _)%nat; [by injection H as <-|].
    outcome_inv H. injection H as <-.
    eapply join_plain, for_each_Forall; [apply draft_info_plain|done].
  - (* get_draft *)
    outcome_inv H. by injection H as <-.
  - (* get_draft_picks *)
    destruct (_ =? _)%nat; [by injection H as <-|].
    outcome_inv H. injection H as <-.
    apply join_plain.
    match goal with
    | E : for_each _ _ = Ok ?l |- _ =>
        assert (Hp : Forall plain l)
          by (eapply for_each_Forall; [apply pick_info_plain|exact E])
    end.
    destruct (_ <? _)%nat; [|done].
    apply Forall_app. split; [done|].
    constructor; [by apply plain_cons|constructor].
  - (* get_trending_players *)
    destruct (_ =? _)%nat; [by injection H as <-|].
    cbv zeta in H. outcome_inv H. injection H as <-.
    apply join_head. by apply plain_cons.
  - (* get_all_players *)
    destruct (_ =? _)%nat; [by injection H as <-|].
    cbv zeta in H. outcome_inv H. injection H as <-.
    apply join_head. by apply plain_cons.
  - (* get_nfl_state *)
    outcome_inv H. by injection H as <-.
Qed.

Lemma unable_on_guard (c : tool_call) (data : json) :
  make_sleeper_request client_get (request_url c) = Ok data ->
  error_guard c data = true ->
  call py client_get c = Ok (unable_message c).
Proof.
  intros Hreq Hg. destruct (call_shape c) as (success & -> & _).
  rewrite Hreq. cbn [obind]. by rewrite Hg.
Qed.

Lemma guard_on_unable (c : tool_call) :
  call py client_get c = Ok (unable_message c) ->
  exists data, make_sleeper_request client_get (request_url c) = Ok data
               /\ error_guard c data = true.
Proof.
  destruct (call_shape c) as (success & -> & Hs).
  destruct (make_sleeper_request client_get (request_url c)) as [data|e];
    cbn [obind]; [|discriminate].
  destruct (error_guard c data) eqn:Hg; [eauto|].
  intros H. apply (Hs _ _ Hg) in H.
  by rewrite unable_message_starts in H.
Qed.

(** What [get_user] does once the body is neither [None] nor a
    dict: the unguarded [.get] raises. *)
Lemma get_user_unguarded_get (username : string) (data : json) :
  make_sleeper_request client_get (request_url (GetUser username)) = Ok data ->
  is_None data = false -> isinstance_dict data = false ->
  get_user py client_get username
  = Err (Exc "AttributeError"
           ("'" ++ json_type data ++ "' object has no attribute 'get'")).
Proof.
  intros Hreq Hn Hd. unfold get_user. simpl request_url in Hreq.
  rewrite Hreq. cbn [obind]. rewrite Hn.
  by destruct data.
Qed.

End Tools.

Example get_user_of_object :
  get_user demo_interpreter
    (answers (JObj [("user_id", JStr "123"); ("username", JStr "bob");
                    ("avatar", JNull)])) "bob"
  = Ok (NL ++ "User ID: 123" ++ NL ++ "Username: bob" ++ NL
           ++ "Display Name: N/A" ++ NL ++ "Avatar ID: None" ++ NL).
Proof. reflexivity. Qed.

Example get_user_of_timeout :
  get_user demo_interpreter times_out "bob"
  = Ok "Unable to fetch user information for username: bob".
Proof. reflexivity. Qed.

(** A username with slashes in it asks for another endpoint; with the
    list that the leagues endpoint answers, [get_user] raises. *)
Example get_user_of_list :
  request_url (GetUser "1/leagues/nfl/2024")
  = request_url (GetUserLeagues "1" "nfl" "2024")
  /\ get_user demo_interpreter (answers (JArr [])) "1/leagues/nfl/2024"
     = Err (Exc "AttributeError" "'list' object has no attribute 'get'").
Proof. split; reflexivity. Qed.

(** The reading of C8 as it stands fails: a request cancelled while
    it is awaited ends [get_user] with the cancellation, raised to the
    caller; and a request that succeeds with the body [null] gets the
    error string, not the formatted information. *)
Lemma get_user_raises_or_reports :
  get_user demo_interpreter cancelled "alice"
  = Err (BaseExc "CancelledError" "")
  /\ fetch (answers JNull) (request_url (GetUser "alice")) = Ok JNull
  /\ get_user demo_interpreter (answers JNull) "alice"
     = Ok "Unable to fetch user information for username: alice".
Proof. repeat split. Qed.

(** C8, amended.  For every username: when the request succeeds with
    a JSON object, [get_user] returns the formatted user information
    of that object; when the request fails with an [Exception] (in
    [get], in [raise_for_status] or in [json]), or succeeds with the
    body [null], it returns "Unable to fetch user information for
    username: " followed by the username, and raises nothing; a
    failure that is no [Exception] goes through to the caller. *)
Theorem get_user_outcomes
    (py : interpreter) (client_get : string -> outcome Response)
    (username : string) :
  match fetch client_get (SLEEPER_API_BASE ++ "/user/" ++ username) with
  | Ok (JObj members) =>
      get_user py client_get username = Ok (user_information py members)
  | Ok JNull =>
      get_user py client_get username
      = Ok ("Unable to fetch user information for username: " ++ username)
  | Ok _ => True
  | Err e =>
      if is_Exception e
      then get_user py client_get username
           = Ok ("Unable to fetch user information for username: " ++ username)
      else get_user py client_get username = Err e
  end.
Proof.
  pose proof (make_sleeper_request_cases client_get
                (SLEEPER_API_BASE ++ "/user/" ++ username)) as Hreq.
  unfold get_user.
  destruct (fetch client_get (SLEEPER_API_BASE ++ "/user/" ++ username))
    as [[| | | | | |members]|e]; try exact I.
  - by rewrite Hreq.
  - by rewrite Hreq.
  - destruct (is_Exception e); by rewrite Hreq.
Qed.

(** The reading of C9 as it stands fails: with the body [{}] the
    request returns that dict, not [None], and [get_user_leagues]
    still takes its error branch; and a request cancelled while it is
    awaited is not turned into [None] but raised to the caller. *)
Lemma error_branch_beyond_None :
  make_sleeper_request (answers (JObj []))
    (request_url (GetUserLeagues "1" "nfl" "2024")) = Ok (JObj [])
  /\ get_user_leagues demo_interpreter (answers (JObj [])) "1" "nfl" "2024"
     = Ok "Unable to fetch leagues for user_id: 1"
  /\ make_sleeper_request cancelled (request_url GetNflState)
     = Err (BaseExc "CancelledError" "").
Proof. repeat split. Qed.

(** C9, amended.  For every URL, [make_sleeper_request] returns the
    parsed body when the request succeeds and [None] when it fails
    with an [Exception] (HTTP error, timeout, JSON decode failure),
    which it never lets through; a failure that is no [Exception] is
    raised to the caller.  Every tool returns its "Unable to fetch"
    message exactly when the request returned a value its guard
    rejects: [None] for [get_user], [get_league], [get_draft] and
    [get_nfl_state]; [None] or anything but a dict for
    [get_all_players]; [None] or anything but a list for the others.
    In particular every tool returns it whenever the result is [None]. *)
Theorem sleeper_error_branches
    (py : interpreter) (client_get : string -> outcome Response) :
  (forall url,
      match fetch client_get url with
      | Ok v => make_sleeper_request client_get url = Ok v
      | Err e =>
          if is_Exception e
          then make_sleeper_request client_get url = Ok JNull
          else make_sleeper_request client_get url = Err e
      end)
  /\ (forall c,
        call py client_get c = Ok (unable_message c)
        <-> exists data,
            make_sleeper_request client_get (request_url c) = Ok data
            /\ error_guard c data = true)
  /\ (forall c,
        make_sleeper_request client_get (request_url c) = Ok JNull ->
        call py client_get c = Ok (unable_message c)).
Proof.
  split; [apply make_sleeper_request_cases|]. split.
  - intros c. split; [apply guard_on_unable|].
    intros (data & Hreq & Hg). by eapply unable_on_guard.
  - intros c Hreq. eapply unable_on_guard; [exact Hreq|]. by destruct c.
Qed.

End SleeperProps.

(** ** More on the Sleeper tools *)

Module SleeperMoreProps.
Import SleeperFantasy Scenarios SleeperProps.
Local Open Scope outcome_scope.

(** X1.  On the empty list (the empty dict for [get_all_players]) each
    of the eight tools that loop over the result returns its own "No
    ... found" message, naming the arguments of the call. *)
Theorem sleeper_empty_results
    (py : interpreter) (client_get : string -> outcome Response)
    (c : tool_call) (msg : string) :
  empty_message c = Some msg ->
  make_sleeper_request client_get (request_url c) = Ok (empty_result c) ->
  call py client_get c = Ok msg.
Proof.
  intros Hmsg Hreq.
  destruct c; simpl in Hmsg; try discriminate Hmsg; injection Hmsg as <-;
    unfold request_url in Hreq; unfold call;
    unfold get_user_leagues, get_league_rosters, get_league_users, get_matchups,
      get_user_drafts, get_draft_picks, get_trending_players, get_all_players;
    cbv zeta; rewrite Hreq; reflexivity.
Qed.

Lemma sleeper_empty_results_witness :
  call demo_interpreter (answers (JArr [])) (GetMatchups LEAGUE_ID 9)
  = Ok ("No matchups found for league_id: " ++ LEAGUE_ID ++ ", week: 9").
Proof.
  apply (sleeper_empty_results demo_interpreter (answers (JArr []))
           (GetMatchups LEAGUE_ID 9)); reflexivity.
Defined.

(** X2.  The username goes into the URL as it is.  A username with
    slashes in it addresses another endpoint: with [user/leagues/sport/
    season] for a username, [get_user] requests the URL of
    [get_user_leagues], and on the list that endpoint answers it raises
    [AttributeError] instead of returning a string. *)
Theorem get_user_unescaped_path
    (py : interpreter) (client_get : string -> outcome Response)
    (user_id sport season : string) (items : list json) :
  make_sleeper_request client_get (request_url (GetUserLeagues user_id sport season))
  = Ok (JArr items) ->
  request_url (GetUser (user_id ++ "/leagues/" ++ sport ++ "/" ++ season))
  = request_url (GetUserLeagues user_id sport season)
  /\ get_user py client_get (user_id ++ "/leagues/" ++ sport ++ "/" ++ season)
     = Err (Exc "AttributeError" "'list' object has no attribute 'get'").
Proof.
  intros Hreq. split; [reflexivity|].
  by rewrite (get_user_unguarded_get py client_get _ (JArr items)).
Qed.

Lemma get_user_unescaped_path_witness :
  get_user demo_interpreter (answers (JArr [JObj []])) "42/leagues/nfl/2024"
  = Err (Exc "AttributeError" "'list' object has no attribute 'get'").
Proof.
  apply (get_user_unescaped_path demo_interpreter (answers (JArr [JObj []]))
           "42" "nfl" "2024" [JObj []]).
  reflexivity.
Defined.

(** X3.  A tool makes one request, to its own URL: whatever else the
    upstream would answer or refuse has no influence on what the tool
    returns or raises. *)
Theorem sleeper_single_request
    (py : interpreter) (get1 get2 : string -> outcome Response) (c : tool_call) :
  get1 (request_url c) = get2 (request_url c) ->
  call py get1 c = call py get2 c.
Proof.
  intros H.
  assert (Hreq : make_sleeper_request get1 (request_url c)
                 = make_sleeper_request get2 (request_url c)).
  { unfold make_sleeper_request, fetch. by rewrite H. }
  destruct c; unfold request_url in Hreq; unfold call;
    unfold get_user, get_user_leagues, get_league, get_league_rosters,
      get_league_users, get_matchups, get_user_drafts, get_draft,
      get_draft_picks, get_trending_players, get_all_players, get_nfl_state;
    cbv zeta; by rewrite Hreq.
Qed.

Lemma sleeper_single_request_witness :
  call demo_interpreter (answers_only (request_url GetNflState) (JObj [])) GetNflState
  = call demo_interpreter (answers (JObj [])) GetNflState.
Proof.
  apply sleeper_single_request. reflexivity.
Defined.

Lemma for_each_Forall2 {A B} (f : A -> outcome B) (l : list A) (out : list B) :
  for_each f l = Ok out <-> Forall2 (fun x y => f x = Ok y) l out.
Proof.
  revert out. induction l as [|x l IH]; intros out; simpl.
  - split; [intros H; injection H as <-; constructor|].
    intros H. by inversion H.
  - split.
    + intros H. outcome_inv H. injection H as <-. constructor; [done|by apply IH].
    + intros H. inversion H as [|? y ? ys Hx Hl]; subst.
      rewrite Hx. cbn [obind]. apply IH in Hl. by rewrite Hl.
Qed.

Lemma for_each_total {A B} (f : A -> outcome B) (l : list A) :
  Forall (fun x => is_Ok (f x) = true) l -> exists out, for_each f l = Ok out.
Proof.
  induction 1 as [|x l Hx _ [out IH]]; simpl; [eauto|].
  destruct (f x) as [y|]; [|done]. cbn [obind]. rewrite IH. eauto.
Qed.

Lemma for_each_first_error {A B} (f : A -> outcome B) (pre : list A) x post e :
  Forall (fun x => is_Ok (f x) = true) pre -> f x = Err e ->
  for_each f (pre ++ x :: post) = Err e.
Proof.
  intros Hpre Hx. induction Hpre as [|p pre Hp _ IH]; simpl.
  - by rewrite Hx.
  - destruct (f p) as [y|]; [|done]. cbn [obind]. by rewrite IH.
Qed.

Lemma field_of_dict (py : interpreter) members key default :
  field py (JObj members) key default = Ok (shown py members key default).
Proof. reflexivity. Qed.

Lemma field_of_other (py : interpreter) (x : json) key default :
  isinstance_dict x = false -> field py x key default = Err (no_get x).
Proof. by destruct x. Qed.

Lemma league_info_dict (py : interpreter) (x : json) :
  isinstance_dict x = true -> is_Ok (league_info py x) = true.
Proof. by destruct x. Qed.

Lemma league_info_other (py : interpreter) (x : json) :
  isinstance_dict x = false -> league_info py x = Err (no_get x).
Proof. by destruct x. Qed.

Lemma length_nonzero {A} (l : list A) : l <> [] -> (length l =? 0)%nat = false.
Proof. by destruct l. Qed.

(** X4.  On a non-empty list, [get_user_leagues] returns one block per
    league, in the order of the list and joined by a line of three
    dashes, when every element is a dict; one element that is not makes
    the whole call raise [AttributeError], naming the type of the first
    such element, and no block is returned. *)
Theorem get_user_leagues_per_league
    (py : interpreter) (client_get : string -> outcome Response)
    (user_id sport season : string) (items : list json) :
  make_sleeper_request client_get (request_url (GetUserLeagues user_id sport season))
  = Ok (JArr items) ->
  items <> [] ->
  (Forall (fun x => isinstance_dict x = true) items ->
   exists blocks,
     Forall2 (fun x b => league_info py x = Ok b) items blocks
     /\ get_user_leagues py client_get user_id sport season
        = Ok (join (NL ++ "---" ++ NL) blocks))
  /\ (forall pre x post,
        items = (pre ++ x :: post)%list ->
        Forall (fun x => isinstance_dict x = true) pre ->
        isinstance_dict x = false ->
        get_user_leagues py client_get user_id sport season = Err (no_get x)).
Proof.
  intros Hreq Hne. unfold request_url in Hreq. unfold get_user_leagues. cbv zeta.
  rewrite Hreq. cbn [obind is_None isinstance_list negb orb items_of].
  rewrite (length_nonzero _ Hne). split.
  - intros Hall.
    destruct (for_each_total (league_info py) items) as [blocks Hb].
    { eapply Forall_impl; [exact Hall|]. intros x. apply league_info_dict. }
    exists blocks. split; [by apply for_each_Forall2|]. by rewrite Hb.
  - intros pre x post -> Hpre Hx.
    rewrite (for_each_first_error (league_info py) pre x post (no_get x)); [done| |].
    + eapply Forall_impl; [exact Hpre|]. intros y. apply league_info_dict.
    + by apply league_info_other.
Qed.

Lemma get_user_leagues_per_league_witness :
  get_user_leagues demo_interpreter
    (answers (JArr [JObj [("name", JStr "Dynasty")]; JNull; JInt 3])) "1" "nfl" "2024"
  = Err (no_get JNull).
Proof.
  refine (proj2 (get_user_leagues_per_league demo_interpreter
                   (answers (JArr [JObj [("name", JStr "Dynasty")]; JNull; JInt 3]))
                   "1" "nfl" "2024" _ eq_refl _)
                [JObj [("name", JStr "Dynasty")]] JNull [JInt 3] eq_refl _ eq_refl).
  - discriminate.
  - by repeat constructor.
Defined.

Lemma roster_info_ok (py : interpreter) (x : json) :
  roster_ok x = true -> is_Ok (roster_info py x) = true.
Proof.
  destruct x as [| | | | | |members]; try done. simpl. unfold lookup_or.
  intros [Hs Hp]%andb_prop. unfold roster_info. cbn [dict_get obind].
  rewrite !field_of_dict. cbn [obind].
  destruct (assoc "settings" members) as [[| | | | | |?]|]; try done;
    rewrite !field_of_dict; cbn [obind];
    destruct (assoc "players" members) as [[| | | | | |?]|]; done.
Qed.

Lemma roster_info_settings (py : interpreter) (members : list (string * json)) :
  isinstance_dict (lookup_or members "settings" (JObj [])) = false ->
  roster_info py (JObj members)
  = Err (no_get (lookup_or members "settings" (JObj []))).
Proof.
  unfold lookup_or, roster_info. cbn [dict_get obind]. rewrite !field_of_dict.
  cbn [obind]. by destruct (assoc "settings" members) as [[| | | | | |?]|].
Qed.

Lemma roster_info_players (py : interpreter) (members : list (string * json)) :
  isinstance_dict (lookup_or members "settings" (JObj [])) = true ->
  sized (lookup_or members "players" (JArr [])) = false ->
  roster_info py (JObj members)
  = Err (no_len (lookup_or members "players" (JArr []))).
Proof.
  unfold lookup_or, roster_info. cbn [dict_get obind]. rewrite !field_of_dict.
  cbn [obind]. intros Hs Hp.
  destruct (assoc "settings" members) as [[| | | | | |?]|]; try done;
    rewrite !field_of_dict; cbn [obind];
    by destruct (assoc "players" members) as [[| | | | | |?]|].
Qed.

(** X5.  In the loop of [get_league_rosters] the defaults stand in for
    missing keys only.  A roster whose [settings] is there but is no
    dict ([null], say) makes the call raise [AttributeError]; one whose
    [players] is there but has no length ([null], a number) makes it
    raise [TypeError]; the first such roster decides, and the call
    returns its blocks only when no roster is like that. *)
Theorem get_league_rosters_defaults
    (py : interpreter) (client_get : string -> outcome Response)
    (league_id : string) (items : list json) :
  make_sleeper_request client_get (request_url (GetLeagueRosters league_id))
  = Ok (JArr items) ->
  items <> [] ->
  (Forall (fun x => roster_ok x = true) items ->
   exists blocks,
     Forall2 (fun x b => roster_info py x = Ok b) items blocks
     /\ get_league_rosters py client_get league_id
        = Ok (join (NL ++ "---" ++ NL) blocks))
  /\ (forall pre members post,
        items = (pre ++ JObj members :: post)%list ->
        Forall (fun x => roster_ok x = true) pre ->
        let settings := lookup_or members "settings" (JObj []) in
        let players := lookup_or members "players" (JArr []) in
        (isinstance_dict settings = false ->
         get_league_rosters py client_get league_id = Err (no_get settings))
        /\ (isinstance_dict settings = true -> sized players = false ->
            get_league_rosters py client_get league_id = Err (no_len players))).
Proof.
  intros Hreq Hne. unfold request_url in Hreq. unfold get_league_rosters. cbv zeta.
  rewrite Hreq. cbn [obind is_None isinstance_list negb orb items_of].
  rewrite (length_nonzero _ Hne). split.
  - intros Hall.
    destruct (for_each_total (roster_info py) items) as [blocks Hb].
    { eapply Forall_impl; [exact Hall|]. intros x. apply roster_info_ok. }
    exists blocks. split; [by apply for_each_Forall2|]. by rewrite Hb.
  - intros pre members post -> Hpre.
    assert (Hpre' : Forall (fun x => is_Ok (roster_info py x) = true) pre).
    { eapply Forall_impl; [exact Hpre|]. intros y. apply roster_info_ok. }
    split.
    + intros Hs.
      by rewrite (for_each_first_error (roster_info py) pre _ post _ Hpre'
                    (roster_info_settings py members Hs)).
    + intros Hs Hp.
      by rewrite (for_each_first_error (roster_info py) pre _ post _ Hpre'
                    (roster_info_players py members Hs Hp)).
Qed.

Lemma get_league_rosters_defaults_witness :
  get_league_rosters demo_interpreter
    (answers (JArr [JObj [("roster_id", JInt 1)];
                    JObj [("roster_id", JInt 2); ("players", JNull)]])) LEAGUE_ID
  = Err (no_len JNull).
Proof.
  refine (proj2 (proj2 (get_league_rosters_defaults demo_interpreter
                   (answers (JArr [JObj [("roster_id", JInt 1)];
                                   JObj [("roster_id", JInt 2); ("players", JNull)]]))
                   LEAGUE_ID _ eq_refl _)
                   [JObj [("roster_id", JInt 1)]]
                   [("roster_id", JInt 2); ("players", JNull)] [] eq_refl _)
                eq_refl eq_refl).
  - discriminate.
  - by repeat constructor.
Defined.

(** X6.  [get_draft_picks] looks at the first 20 picks only.  With
    more than 20, what comes after the 20th is never inspected, so
    nothing there can make the call fail, and shows only as a count in
    a last line; with 20 or fewer, every pick is shown and there is no
    such line. *)
Theorem get_draft_picks_first_twenty
    (py : interpreter) (client_get : string -> outcome Response)
    (draft_id : string) (shown_picks rest : list json) (blocks : list string) :
  make_sleeper_request client_get (request_url (GetDraftPicks draft_id))
  = Ok (JArr (shown_picks ++ rest)) ->
  shown_picks <> [] ->
  length shown_picks <= 20 ->
  (rest <> [] -> length shown_picks = 20) ->
  for_each (pick_info py) shown_picks = Ok blocks ->
  get_draft_picks py client_get draft_id
  = Ok (join NL (blocks ++
                 match rest with
                 | [] => []
                 | _ => ["... and " ++ pretty (Z.of_nat (length rest)) ++ " more picks"]
                 end)).
Proof.
  intros Hreq Hne Hle Hrest Hblocks.
  unfold request_url in Hreq. unfold get_draft_picks. cbv zeta.
  rewrite Hreq. cbn [obind is_None isinstance_list negb orb items_of].
  rewrite length_nonzero by (by destruct shown_picks).
  assert (Htake : take 20 (shown_picks ++ rest) = shown_picks).
  { destruct rest as [|r rest].
    - rewrite app_nil_r. by apply take_ge.
    - rewrite take_app_le by (rewrite Hrest; done).
      apply take_ge. rewrite Hrest; done. }
  rewrite Htake, Hblocks. cbn [obind]. rewrite length_app.
  destruct rest as [|r rest].
  - simpl length. rewrite Nat.add_0_r.
    destruct (20 <? length shown_picks)%nat eqn:Hlt.
    + apply Nat.ltb_lt in Hlt. lia.
    + by rewrite app_nil_r.
  - rewrite Hrest by done.
    replace (20 <? 20 + length (r :: rest))%nat with true
      by (symmetry; apply Nat.ltb_lt; simpl; lia).
    replace (Z.of_nat (20 + length (r :: rest)) - 20)%Z
      with (Z.of_nat (length (r :: rest))) by lia.
    reflexivity.
Qed.

Lemma get_draft_picks_first_twenty_witness :
  exists blocks,
    length blocks = 20
    /\ get_draft_picks demo_interpreter
         (answers (JArr (replicate 20 (JObj []) ++ [JNull; JInt 7]))) "D"
       = Ok (join NL (blocks ++ ["... and 2 more picks"])).
Proof.
  destruct (for_each_total (pick_info demo_interpreter) (replicate 20 (JObj [])))
    as [blocks Hb]; [by repeat constructor|].
  exists blocks. split.
  - apply for_each_Forall2, Forall2_length in Hb. by rewrite <- Hb.
  - by apply (get_draft_picks_first_twenty demo_interpreter
                (answers (JArr (replicate 20 (JObj []) ++ [JNull; JInt 7]))) "D"
                (replicate 20 (JObj [])) [JNull; JInt 7]).
Defined.

Lemma group_add_teams (py : interpreter) (k m : json) (gs : list (json * list json)) :
  concat (snd <$> group_add py k m gs) ≡ₚ (concat (snd <$> gs) ++ [m])%list.
Proof.
  induction gs as [|[k' teams] gs IH]; simpl; [done|].
  destruct (key_eq py k' k); simpl.
  - rewrite <- !app_assoc. f_equiv. apply Permutation_app_comm.
  - rewrite IH. by rewrite app_assoc.
Qed.

Lemma group_ok_more (seen more : list json) (g : json * list json) :
  group_ok seen g -> group_ok (seen ++ more) g.
Proof.
  intros [Hsub Hhead]. split; [|done]. by apply sublist_inserts_r.
Qed.

Lemma group_add_ok (py : interpreter) (seen : list json) (m : json)
    (gs : list (json * list json)) :
  Forall (group_ok seen) gs ->
  Forall (group_ok (seen ++ [m])) (group_add py (matchup_id_of m) m gs).
Proof.
  induction 1 as [|[k' teams] gs [Hsub (t & rest & Ht & Hk)] Hgs IH]; simpl.
  - constructor; [|constructor]. split; [by apply sublist_inserts_l|]. by exists m, [].
  - simpl in *. destruct (key_eq py k' (matchup_id_of m)).
    + constructor.
      * split; [by apply sublist_app|]. simpl. subst teams. by exists t, (rest ++ [m])%list.
      * eapply Forall_impl; [exact Hgs|]. intros g. apply group_ok_more.
    + constructor; [|done]. apply (group_ok_more seen [m] (k', teams)).
      split; [done|]. by exists t, rest.
Qed.

Lemma group_matchups_spec (py : interpreter) (items seen : list json)
    (acc groups : list (json * list json)) :
  Forall (group_ok seen) acc ->
  group_matchups py items acc = Ok groups ->
  concat (snd <$> groups)
    ≡ₚ (concat (snd <$> acc)
          ++ filter (fun m => is_None (matchup_id_of m) = false) items)%list
  /\ Forall (group_ok (seen ++ items)) groups.
Proof.
  revert seen acc. induction items as [|m items IH]; intros seen acc Hacc H; simpl in H.
  - injection H as <-. rewrite filter_nil, !app_nil_r. done.
  - destruct m as [| | | | | |members]; try discriminate H.
    cbn [dict_get obind] in H.
    change (match assoc "matchup_id" members with Some x => x | None => JNull end)
      with (matchup_id_of (JObj members)) in H.
    replace (seen ++ JObj members :: items)%list
      with ((seen ++ [JObj members]) ++ items)%list by (by rewrite <- app_assoc).
    destruct (is_None (matchup_id_of (JObj members))) eqn:Hnone.
    + rewrite filter_cons_False by (by rewrite Hnone).
      apply IH; [|done].
      eapply Forall_impl; [exact Hacc|]. intros g. apply group_ok_more.
    + destruct (hashable (matchup_id_of (JObj members))); [|discriminate H].
      rewrite filter_cons_True by done.
      apply (IH (seen ++ [JObj members])%list) in H; [|by apply group_add_ok].
      destruct H as [Hperm Hok]. split; [|done].
      rewrite Hperm, group_add_teams. rewrite <- app_assoc. done.
Qed.

(** X7.  The grouping loop of [get_matchups], when it gets through,
    puts every matchup that has a [matchup_id] into exactly one group
    and leaves out those that have none ([null] or no such key): the
    teams of all groups together are the matchups with an id, each
    once.  Within a group the teams keep the order of the response,
    and the key of the group is the id of its first team. *)
Theorem group_matchups_partition
    (py : interpreter) (items : list json) (groups : list (json * list json)) :
  group_matchups py items [] = Ok groups ->
  concat (snd <$> groups) ≡ₚ filter (fun m => is_None (matchup_id_of m) = false) items
  /\ Forall (fun g => snd g `sublist_of` items
                      /\ exists t rest, snd g = t :: rest /\ matchup_id_of t = fst g)
            groups.
Proof.
  intros H. by apply (group_matchups_spec py items [] [] groups) in H.
Qed.

Lemma group_matchups_partition_witness :
  exists groups,
    group_matchups demo_interpreter demo_matchups [] = Ok groups
    /\ fst <$> groups = [JInt 1; JInt 2]
    /\ concat (snd <$> groups)
       ≡ₚ [JObj [("matchup_id", JInt 1); ("roster_id", JInt 3)];
           JObj [("matchup_id", JInt 2); ("roster_id", JInt 4)];
           JObj [("matchup_id", JInt 1); ("roster_id", JInt 5)]].
Proof.
  eexists. split; [reflexivity|]. split; [reflexivity|].
  exact (proj1 (group_matchups_partition demo_interpreter demo_matchups _ eq_refl)).
Defined.




(** X9.  What [get_draft] does with each result of the request.  On
    [None] it returns its error message; on a dict it returns the
    formatted draft, with the rounds and teams read from [settings],
    "N/A" standing in when [settings] or the key is missing; on a dict
    whose [settings] is there but is no dict ([null], say) it raises
    [AttributeError]; on any other value it raises [AttributeError]
    too; and what the request raises, it raises. *)
Theorem get_draft_outcomes
    (py : interpreter) (client_get : string -> outcome Response) (draft_id : string) :
  match make_sleeper_request client_get (request_url (GetDraft draft_id)) with
  | Ok JNull =>
      get_draft py client_get draft_id
      = Ok ("Unable to fetch draft information for draft_id: " ++ draft_id)
  | Ok (JObj members) =>
      let settings := lookup_or members "settings" (JObj []) in
      if isinstance_dict settings
      then get_draft py client_get draft_id
           = Ok (NL ++ "Draft ID: " ++ shown py members "draft_id" (JStr "N/A") ++ NL
                    ++ "Status: " ++ shown py members "status" (JStr "N/A") ++ NL
                    ++ "Type: " ++ shown py members "type" (JStr "N/A") ++ NL
                    ++ "Season: " ++ shown py members "season" (JStr "N/A") ++ NL
                    ++ "League ID: " ++ shown py members "league_id" (JStr "N/A") ++ NL
                    ++ "Sport: " ++ shown py members "sport" (JStr "N/A") ++ NL
                    ++ "Settings:" ++ NL
                    ++ "  Rounds: "
                    ++ shown py (members_of settings) "rounds" (JStr "N/A") ++ NL
                    ++ "  Teams: "
                    ++ shown py (members_of settings) "teams" (JStr "N/A") ++ NL)
      else get_draft py client_get draft_id = Err (no_get settings)
  | Ok data => get_draft py client_get draft_id = Err (no_get data)
  | Err e => get_draft py client_get draft_id = Err e
  end.
Proof.
  unfold request_url, get_draft. cbv zeta.
  destruct (make_sleeper_request client_get _) as [[| | | | | |members]|e];
    try reflexivity.
  cbn [obind is_None]. rewrite !field_of_dict. cbn [obind dict_get].
  unfold lookup_or.
  destruct (assoc "settings" members) as [[| | | | | |smembers]|]; reflexivity.
Qed.

Example get_draft_null_settings :
  get_draft demo_interpreter
    (answers (JObj [("draft_id", JStr "9"); ("settings", JNull)])) "9"
  = Err (no_get JNull).
Proof. reflexivity. Qed.

End SleeperMoreProps.

(** ** More on the echo tool and the processor *)

Module DispatcherMoreProps.
Import McpWithDeps Containers Mechanism Scenarios EchoProps DispatcherProps.

(** X10.  Whether it returns or raises, [echo_deps] sends its one log
    notification first, after those already sent, and changes no object
    that exists; when it raises, it has created none either. *)
Theorem echo_deps_effects (ctx : Context) (w : world) :
  notifications (echo_deps ctx w).2
  = (notifications w ++ [("info", "This is an info message")])%list
  /\ (forall l o, heap w !! l = Some o -> heap (echo_deps ctx w).2 !! l = Some o)
  /\ (is_Ok (echo_deps ctx w).1 = false -> heap (echo_deps ctx w).2 = heap w).
Proof.
  destruct (attrs_of (heap w) (meta (request_context ctx)) !! "deps") as [d|] eqn:Hd.
  - rewrite (echo_deps_present ctx w d Hd). cbn [fst snd is_Ok].
    split; [done|]. split; [|done].
    intros l o Hl. do 2 apply lookup_store_old. exact Hl.
  - rewrite (echo_deps_missing ctx w Hd). cbn [fst snd]. done.
Qed.



End DispatcherMoreProps.

(** ** More on the API *)

Module ApiMoreProps.
Import MyAgentApi Scenarios.

(** X13.  The two endpoints that run the agent differ in what a
    failure becomes.  From [chat] no [Exception] gets out but an
    [HTTPException] of status 500: whatever the agent raised, an
    [HTTPException] of its own with another status included, is
    replaced by one whose detail is its text.  From [test] every
    failure gets out as it is, and a success is the bare output. *)
Theorem agent_endpoints_on_failure
    (run_sync : string -> outcome AgentRunResult) :
  (forall request e,
      chat run_sync request = Err e -> is_Exception e = true ->
      exists e0, run_sync (query request) = Err e0
                 /\ e = HTTPException 500 (exc_str e0))
  /\ (forall request code detail,
        run_sync (query request) = Err (HTTPException code detail) ->
        chat run_sync request
        = Err (HTTPException 500 (pretty code ++ ": " ++ detail)))
  /\ (forall e,
        run_sync "What are the key features of Pydantic AI in a short response."
        = Err e ->
        test run_sync = Err e)
  /\ (forall response,
        run_sync "What are the key features of Pydantic AI in a short response."
        = Ok response ->
        test run_sync = Ok (JStr (output response))).
Proof.
  split; [|split; [|split]].
  - intros request e. unfold chat.
    destruct (run_sync (query request)) as [r|e0]; simpl; [discriminate|].
    destruct (is_Exception e0) eqn:He0.
    + intros [= <-] _. by exists e0.
    + intros [= <-] He. by rewrite He in He0.
  - intros request code detail H. unfold chat. by rewrite H.
  - intros e H. unfold test. by rewrite H.
  - intros response H. unfold test. by rewrite H.
Qed.

End ApiMoreProps.

(** ** The chat page *)

Module UiProps.
Import SleeperFantasy MyAgentApi UiMain Scenarios.
Local Open Scope outcome_scope.

(** X14.  One run of the chat page never rewrites the history: it
    leaves the old messages as they were and adds nothing when there is
    no prompt (none, or the empty string), the user message and the
    answer when the call of the API ends, and the user message alone
    when the call lets an exception out.  What the run puts on the page
    is the title, the old messages, the chat input and the messages it
    added, each once and in that order. *)
Theorem run_script_history
    (API_URL : string) (post : string -> json -> outcome Response)
    (is_RequestException : exc -> bool)
    (session : option (list message)) (prompt : option string) :
  let old := match session with Some ms => ms | None => [] end in
  let run := run_script API_URL post is_RequestException session prompt in
  exists new : list message,
    run.1.2 = (old ++ new)%list
    /\ run.2 = (Title "Echo Bot" :: (shown_message <$> old)
                  ++ [ChatInput "Say something"] ++ (shown_message <$> new))%list
    /\ match submitted prompt with
       | None => new = [] /\ run.1.1 = Ok tt
       | Some p =>
           match ask_agent API_URL post is_RequestException p with
           | Ok result =>
               new = [user_message p; assistant_message result] /\ run.1.1 = Ok tt
           | Err e => new = [user_message p] /\ run.1.1 = Err e
           end
       end.
Proof.
  intros old run. subst run. unfold run_script. fold old.
  destruct (submitted prompt) as [p|].
  - destruct (ask_agent API_URL post is_RequestException p) as [result|e].
    + exists [user_message p; assistant_message result]. cbn [fst snd].
      split; [by rewrite <- app_assoc|]. split; [|done].
      simpl. f_equal. by rewrite <- !app_assoc.
    + exists [user_message p]. cbn [fst snd]. split; [done|]. split; [|done].
      simpl. f_equal. by rewrite <- !app_assoc.
  - exists []. cbn [fst snd]. rewrite !app_nil_r. done.
Qed.

Lemma submitted_nonempty (p : string) : p <> "" -> submitted (Some p) = Some p.
Proof. by destruct p. Qed.

(** X15.  A conversation: the page run once per prompt, none of them
    empty, each run on the history the last one left.  If every run
    ends normally, the history is the old one followed by one user
    message and one answer per prompt, in the order of the prompts. *)
Theorem converse_history
    (API_URL : string) (post : string -> json -> outcome Response)
    (is_RequestException : exc -> bool)
    (session : option (list message)) (prompts : list string)
    (messages : list message) :
  Forall (fun p => p <> "") prompts ->
  converse API_URL post is_RequestException session prompts = (Ok tt, messages) ->
  exists answers : list json,
    Forall2 (fun p a => ask_agent API_URL post is_RequestException p = Ok a)
            prompts answers
    /\ messages
       = (match session with Some ms => ms | None => [] end
            ++ concat (zip_with (fun p a => [user_message p; assistant_message a])
                                prompts answers))%list
    /\ length messages
       = length (match session with Some ms => ms | None => [] end)
         + 2 * length prompts.
Proof.
  intros Hne. revert session. induction Hne as [|p prompts Hp _ IH]; intros session H.
  - simpl in H. injection H as <-. exists []. simpl. rewrite app_nil_r.
    split; [constructor|]. split; [done|lia].
  - simpl in H. unfold run_script in H. rewrite (submitted_nonempty p Hp) in H.
    destruct (ask_agent API_URL post is_RequestException p) as [a|e] eqn:Ha;
      [|discriminate H].
    apply IH in H as (answers & Hall & -> & Hlen).
    exists (a :: answers). split; [by constructor|]. split.
    + simpl. by rewrite <- !app_assoc.
    + rewrite Hlen, !length_app. simpl. lia.
Qed.

Lemma converse_history_witness :
  converse "http://localhost:8000" (api_answers (JObj [("response", JStr "hi")]))
    demo_is_RequestException None ["hello"; "again"]
  = (Ok tt, [user_message "hello"; assistant_message (JStr "hi");
             user_message "again"; assistant_message (JStr "hi")]).
Proof.
  destruct (converse_history "http://localhost:8000"
              (api_answers (JObj [("response", JStr "hi")]))
              demo_is_RequestException None ["hello"; "again"] _
              ltac:(by repeat constructor) eq_refl) as (answers & _ & _ & _).
  reflexivity.
Defined.

(** X16.  What the call of the API gives the page, case by case.  The
    answer is the value under [response] when the post succeeds, the
    status is good and the body is a dict with that key.  A failure of
    the post, of [raise_for_status] or of [json], a body that is a dict
    without the key ([KeyError]) or no dict at all ([TypeError]), all
    go to the one handler: an exception of the class
    [RequestException] becomes the answer "Error connecting to agent:"
    with its text, any other gets out of the script. *)
Theorem ask_agent_outcomes
    (API_URL : string) (post : string -> json -> outcome Response)
    (is_RequestException : exc -> bool) (p : string) :
  let got := ask_agent API_URL post is_RequestException p in
  let handled e := shown_or_raised is_RequestException e got in
  match post (API_URL ++ "/chat") (JObj [("query", JStr p)]) with
  | Err e => handled e
  | Ok response =>
      match raise_for_status response with
      | Err e => handled e
      | Ok _ =>
          match response_json response with
          | Err e => handled e
          | Ok (JObj members) =>
              match assoc "response" members with
              | Some x => got = Ok x
              | None => handled (Exc "KeyError" "'response'")
              end
          | Ok body =>
              exists msg, subscript body "response" = Err (Exc "TypeError" msg)
                          /\ handled (Exc "TypeError" msg)
          end
      end
  end.
Proof.
  intros got handled. subst got handled. unfold shown_or_raised, ask_agent.
  destruct (post _ _) as [response|e]; simpl.
  2: { by destruct (is_RequestException e). }
  destruct (raise_for_status response) as [[]|e]; simpl.
  2: { by destruct (is_RequestException e). }
  destruct (response_json response) as [body|e]; simpl.
  2: { by destruct (is_RequestException e). }
  destruct body as [| | | | | |members]; simpl;
    try (eexists; split; [reflexivity|]; by destruct (is_RequestException _)).
  destruct (assoc "response" members); simpl; [done|].
  by destruct (is_RequestException _).
Qed.

(** X17.  The page and the [chat] endpoint fit: when the API answers
    the post of [{"query": prompt}] with a good status and the body
    that [chat] returns for that query, the answer the page adds to the
    history and shows is the output of the agent, as a string. *)
Theorem page_shows_agent_output
    (API_URL : string) (post : string -> json -> outcome Response)
    (is_RequestException : exc -> bool)
    (run_sync : string -> outcome AgentRunResult)
    (session : option (list message)) (p : string) (r : AgentRunResult) :
  p <> "" ->
  run_sync p = Ok r ->
  post (API_URL ++ "/chat") (JObj [("query", JStr p)])
  = Ok {| raise_for_status := Ok tt;
          response_json := chat run_sync {| query := p |} |} ->
  (run_script API_URL post is_RequestException session (Some p)).1
  = (Ok tt,
     (match session with Some ms => ms | None => [] end
        ++ [user_message p; assistant_message (JStr (output r))])%list).
Proof.
  intros Hp Hr Hpost. unfold run_script. rewrite (submitted_nonempty p Hp).
  unfold ask_agent. rewrite Hpost. cbn [obind try_except raise_for_status response_json].
  unfold chat. cbn [query]. rewrite Hr. cbn. by rewrite <- app_assoc.
Qed.

Lemma page_shows_agent_output_witness :
  (run_script "http://localhost:8000"
     (fun _ body => Ok {| raise_for_status := Ok tt;
                          response_json := chat echoing_agent {| query := "hello" |} |})
     demo_is_RequestException None (Some "hello")).1
  = (Ok tt, [user_message "hello"; assistant_message (JStr "You said: hello")]).
Proof.
  apply (page_shows_agent_output "http://localhost:8000" _ demo_is_RequestException
           echoing_agent None "hello" {| output := "You said: hello" |});
    [discriminate|reflexivity|reflexivity].
Defined.

End UiProps.

(** ** The items API *)

Module FastapiTestProps.
Import FastapiTest.

Lemma list_index_in_range {A} (l : list A) (i : Z) (x : A) :
  (0 <= i)%Z -> l !! Z.to_nat i = Some x -> list_index l i = Ok x.
Proof.
  intros Hi Hx. unfold list_index.
  destruct (i <? 0)%Z eqn:Hneg; [apply Z.ltb_lt in Hneg; lia|].
  by rewrite Hneg, Hx.
Qed.

(** X18.  [get_item] gives the item at [item_id] exactly when the id
    is at least 0 and below the number of items; for any other id,
    negative ones included, it fails with status 404 and a detail that
    names the id and the number of items.  It never raises
    [IndexError], never counts from the end, and never changes the
    list. *)
Theorem get_item_bounds (item_id : Z) (items : list Item) :
  (get_item item_id items).2 = items
  /\ ((0 <= item_id < Z.of_nat (length items))%Z ->
      exists item, items !! Z.to_nat item_id = Some item
                   /\ (get_item item_id items).1 = Ok item)
  /\ (~ (0 <= item_id < Z.of_nat (length items))%Z ->
      (get_item item_id items).1
      = Err (HTTPException 404
               ("Item id " ++ pretty item_id ++ " out of range (valid range [0-"
                  ++ pretty (length items) ++ "])"))).
Proof.
  unfold get_item.
  destruct ((item_id <? Z.of_nat (length items))%Z && (item_id >=? 0)%Z) eqn:Hg.
  - apply andb_prop in Hg as [Hlt Hge].
    apply Z.ltb_lt in Hlt. apply Z.geb_le in Hge.
    split; [done|]. split; [|lia]. intros _.
    destruct (lookup_lt_is_Some_2 items (Z.to_nat item_id)) as [item Hitem]; [lia|].
    exists item. split; [done|]. cbn [fst]. by apply list_index_in_range.
  - split; [done|]. split; [|done]. intros [Hge Hlt].
    apply andb_false_iff in Hg as [Hg|Hg].
    + apply Z.ltb_ge in Hg. lia.
    + rewrite Z.geb_leb in Hg. apply Z.leb_gt in Hg. lia.
Qed.

(** X19.  What is created can be read back.  [create_item] returns the
    whole list with the new item last; after it, [get_item] at the old
    length gives that item, every id that was valid before still gives
    the item it gave, and after [clear_items] the ids start from 0
    again. *)
Theorem create_then_get (item : Item) (items : list Item) :
  let after := (create_item item items).2 in
  (create_item item items).1 = Ok after
  /\ after = (items ++ [item])%list
  /\ (get_item (Z.of_nat (length items)) after).1 = Ok item
  /\ (forall item_id,
        (0 <= item_id < Z.of_nat (length items))%Z ->
        (get_item item_id after).1 = (get_item item_id items).1)
  /\ (get_item 0 (create_item item (clear_items items).2).2).1 = Ok item.
Proof.
  intros after. subst after. cbn [create_item fst snd].
  split; [done|]. split; [done|]. split; [|split].
  - destruct (get_item_bounds (Z.of_nat (length items)) (items ++ [item]))
      as (_ & Hin & _).
    destruct Hin as (x & Hx & ->); [rewrite length_app; simpl; lia|].
    rewrite Nat2Z.id, lookup_app_r, Nat.sub_diag in Hx by lia.
    by injection Hx as ->.
  - intros item_id Hid.
    destruct (get_item_bounds item_id (items ++ [item])) as (_ & Hin & _).
    destruct Hin as (x & Hx & ->); [rewrite length_app; simpl; lia|].
    destruct (get_item_bounds item_id items) as (_ & Hin' & _).
    destruct Hin' as (y & Hy & ->); [done|].
    rewrite lookup_app_l in Hx by lia. congruence.
  - reflexivity.
Qed.

(** X20.  [list_items] never fails and never changes the list; what it
    returns is always a prefix of the list.  For a limit of 0 or more
    it is the first [limit] items, all of them when there are fewer;
    a negative limit is not refused: it leaves out the last [-limit]
    items. *)
Theorem list_items_prefix (limit : Z) (items : list Item) :
  exists shown : list Item,
    list_items limit items = (Ok shown, items)
    /\ shown `prefix_of` items
    /\ ((0 <= limit)%Z ->
        shown = take (Z.to_nat limit) items
        /\ length shown = Nat.min (Z.to_nat limit) (length items))
    /\ ((limit < 0)%Z ->
        length shown = length items - Z.to_nat (- limit)
        /\ (shown ++ drop (length shown) items)%list = items).
Proof.
  exists (slice_to items limit). split; [done|].
  assert (Hpre : slice_to items limit `prefix_of` items).
  { unfold slice_to. destruct (limit <? 0)%Z; apply prefix_take. }
  split; [exact Hpre|]. unfold slice_to.
  destruct (limit <? 0)%Z eqn:Hneg.
  - apply Z.ltb_lt in Hneg. split; [intros ?; lia|].
    intros _. rewrite length_take. split; [lia|].
    rewrite Nat.min_l by lia. apply take_drop.
  - apply Z.ltb_ge in Hneg. split; [|intros ?; lia].
    intros _. split; [done|]. by rewrite length_take.
Qed.

End FastapiTestProps.

(** ** Reading the ESPN cookies *)

Module EspnProps.
Import EspnFantasy.

#[local] Arguments String.append !s1 s2 : simpl nomatch.

Lemma str_app_assoc (a b c : string) : (a ++ b) ++ c = a ++ b ++ c.
Proof. induction a as [|x a IH]; simpl; [done|by f_equal]. Qed.

Lemma has_char_app (c : ascii) (a b : string) :
  has_char c (a ++ b) = has_char c a || has_char c b.
Proof.
  induction a as [|x a IH]; simpl; [done|].
  by rewrite IH, orb_assoc.
Qed.

Lemma strip_prefix_app (p s : string) : strip_prefix p (p ++ s) = Some s.
Proof.
  induction p as [|a p IH]; simpl; [done|].
  by rewrite Ascii.eqb_refl.
Qed.

Lemma strip_prefix_inv (p s t : string) : strip_prefix p s = Some t -> s = p ++ t.
Proof.
  revert s. induction p as [|a p IH]; intros s H; simpl in H.
  - by injection H as ->.
  - destruct s as [|b s]; [done|].
    destruct (Ascii.eqb b a) eqn:Hab; [|done].
    apply Ascii.eqb_eq in Hab as ->. simpl. f_equal. by apply IH.
Qed.

Lemma span_not_spec (c : ascii) (s run rest : string) :
  span_not c s = (run, rest) ->
  s = run ++ rest /\ has_char c run = false
  /\ (rest = "" \/ exists rest', rest = String c rest').
Proof.
  revert run. induction s as [|a s IH]; intros run H; simpl in H.
  - injection H as <- <-. auto.
  - destruct (Ascii.eqb a c) eqn:Hac.
    + injection H as <- <-. apply Ascii.eqb_eq in Hac as ->. eauto.
    + destruct (span_not c s) as [run' rest'] eqn:Hs.
      injection H as <- <-.
      destruct (IH run' eq_refl) as (-> & Hrun & Hrest).
      simpl. by rewrite Hac.
Qed.

Lemma span_not_app (c : ascii) (run rest : string) :
  has_char c run = false ->
  span_not c (run ++ String c rest) = (run, String c rest).
Proof.
  induction run as [|a run IH]; simpl; intros H.
  - by rewrite Ascii.eqb_refl.
  - apply orb_false_elim in H as [Ha Hrun].
    by rewrite Ha, (IH Hrun).
Qed.

Lemma search_here (m : string -> option string) (s g : string) :
  m s = Some g -> search m s = Some g.
Proof. intros H. destruct s; simpl; by rewrite H. Qed.

Lemma search_some (m : string -> option string) (s g : string) :
  search m s = Some g -> exists pre rest, s = pre ++ rest /\ m rest = Some g.
Proof.
  induction s as [|a s IH]; simpl; intros H.
  - exists "", "". destruct (m ""); by simplify_eq.
  - destruct (m (String a s)) as [g'|] eqn:Hm.
    + injection H as ->. by exists "", (String a s).
    + destruct (IH H) as (pre & rest & -> & Hrest).
      by exists (String a pre), rest.
Qed.

Lemma search_none (m : string -> option string) (s : string) :
  search m s = None -> forall pre rest, s = pre ++ rest -> m rest = None.
Proof.
  induction s as [|a s IH]; simpl; intros H pre rest Hs.
  - destruct pre; [|done]. simpl in Hs. subst rest. by destruct (m "").
  - destruct (m (String a s)) as [g'|] eqn:Hm; [done|].
    destruct pre as [|b pre]; simpl in Hs.
    + by subst rest.
    + injection Hs as _ Hs. by apply (IH H pre).
Qed.

Lemma match_espn_s2_inv (s v : string) :
  match_espn_s2 s = Some v ->
  v <> "" /\ has_char ";" v = false
  /\ exists post, s = "espn_s2=" ++ v ++ post
                  /\ (post = "" \/ exists p, post = String ";" p).
Proof.
  unfold match_espn_s2. intros H.
  destruct (strip_prefix "espn_s2=" s) as [t|] eqn:Ht; [|done].
  apply strip_prefix_inv in Ht as ->.
  destruct (span_not ";" t) as [run rest] eqn:Hspan.
  apply span_not_spec in Hspan as (-> & Hrun & Hrest).
  destruct run as [|a run]; [done|]. injection H as <-.
  split; [done|]. split; [done|]. by exists rest.
Qed.

Lemma match_espn_s2_none (post : string) :
  match_espn_s2 ("espn_s2=" ++ post) = None ->
  post = "" \/ exists p, post = String ";" p.
Proof.
  unfold match_espn_s2. rewrite strip_prefix_app.
  destruct (span_not ";" post) as [run rest] eqn:Hspan.
  apply span_not_spec in Hspan as (-> & _ & Hrest).
  by destruct run.
Qed.

Lemma match_SWID_inv (s g : string) :
  match_SWID s = Some g ->
  exists r post, g = "{" ++ r ++ "}" /\ r <> "" /\ has_char "}" r = false
                 /\ s = "SWID=" ++ g ++ post.
Proof.
  unfold match_SWID. intros H.
  destruct (strip_prefix "SWID={" s) as [t|] eqn:Ht; [|done].
  apply strip_prefix_inv in Ht as ->.
  destruct (span_not "}" t) as [run rest] eqn:Hspan.
  apply span_not_spec in Hspan as (-> & Hrun & Hrest).
  destruct run as [|a run]; [done|].
  destruct rest as [|b rest]; [done|].
  destruct (Ascii.eqb b "}") eqn:Hb; [|done].
  apply Ascii.eqb_eq in Hb as ->. injection H as <-.
  exists (String a run), rest. split; [done|]. split; [done|]. split; [done|].
  simpl. by rewrite !str_app_assoc.
Qed.

Lemma match_SWID_app (r post : string) :
  r <> "" -> has_char "}" r = false ->
  match_SWID ("SWID={" ++ r ++ "}" ++ post) = Some ("{" ++ r ++ "}").
Proof.
  intros Hr Hno. unfold match_SWID. rewrite strip_prefix_app.
  change ("}" ++ post) with (String "}" post).
  rewrite (span_not_app _ _ _ Hno). by destruct r.
Qed.

Lemma match_espn_s2_app (v post : string) :
  v <> "" -> has_char ";" v = false ->
  match_espn_s2 ("espn_s2=" ++ v ++ String ";" post) = Some v.
Proof.
  intros Hv Hno. unfold match_espn_s2. rewrite strip_prefix_app.
  rewrite (span_not_app _ _ _ Hno). by destruct v.
Qed.

(** No match of the SWID pattern starts where the character five
    places on is no opening brace. *)
Lemma match_SWID_no_brace (x y : string) :
  has_char "{" x = false -> 6 <= String.length x -> match_SWID (x ++ y) = None.
Proof.
  intros Hno Hlen.
  do 6 (destruct x as [|? x]; [simpl in Hlen; lia|]).
  simpl in Hno. repeat (apply orb_false_elim in Hno as [? Hno]).
  unfold match_SWID. simpl.
  repeat match goal with
         | |- context [if Ascii.eqb ?a ?b then _ else _] =>
             destruct (Ascii.eqb a b) eqn:?; try done
         end.
Qed.

Lemma search_SWID_skip (a rest : string) :
  has_char "{" a = false ->
  search match_SWID (a ++ "SWID=" ++ rest) = search match_SWID ("SWID=" ++ rest).
Proof.
  induction a as [|x a IH]; intros Hno; [done|].
  pose proof Hno as Hno'. simpl in Hno'. apply orb_false_elim in Hno' as [_ Ha].
  rewrite <- (IH Ha).
  change (String x a ++ "SWID=" ++ rest) with (String x (a ++ "SWID=" ++ rest)).
  cbn [search].
  replace (String x (a ++ "SWID=" ++ rest)) with ((String x a ++ "SWID=") ++ rest)
    by (by rewrite str_app_assoc).
  rewrite match_SWID_no_brace; [done| |].
  - by rewrite has_char_app, Hno.
  - simpl. clear. induction a; simpl; lia.
Qed.

Section Cookies.
Variable read_file : string -> outcome string.

(** X21.  When the file can be read, the result has the two keys
    [espn_s2] and [swid] and no [error].  A value under [espn_s2] is
    not empty, holds no semicolon and stands in the file right after
    [espn_s2=], up to the next semicolon or the end; [None] there
    means that every [espn_s2=] of the file is followed at once by a
    semicolon or the end.  A value under [swid] is a braced, non-empty
    run without a closing brace inside that stands in the file right
    after [SWID=]; [None] there means that the file has no such
    place. *)
Theorem parse_cookies_found (filepath content : string) :
  read_file filepath = Ok content ->
  exists espn_s2 swid : option string,
    parse_cookies_from_file read_file filepath
    = Ok (JObj [("espn_s2", group_or_None espn_s2); ("swid", group_or_None swid)])
    /\ (forall v, espn_s2 = Some v ->
          v <> "" /\ has_char ";" v = false
          /\ exists pre post, content = pre ++ "espn_s2=" ++ v ++ post
                              /\ (post = "" \/ exists p, post = String ";" p))
    /\ (espn_s2 = None ->
        forall pre post, content = pre ++ "espn_s2=" ++ post ->
                         post = "" \/ exists p, post = String ";" p)
    /\ (forall g, swid = Some g ->
          exists r pre post, g = "{" ++ r ++ "}" /\ r <> ""
                             /\ has_char "}" r = false
                             /\ content = pre ++ "SWID=" ++ g ++ post)
    /\ (swid = None ->
        forall pre r post, content = pre ++ "SWID={" ++ r ++ "}" ++ post ->
                           r <> "" -> has_char "}" r = true).
Proof.
  intros Hread.
  exists (search match_espn_s2 content), (search match_SWID content).
  unfold parse_cookies_from_file. rewrite Hread.
  split; [done|]. repeat split.
  - apply search_some in H as (pre & rest & -> & H).
    by apply match_espn_s2_inv in H as (? & _).
  - apply search_some in H as (pre & rest & -> & H).
    by apply match_espn_s2_inv in H as (_ & ? & _).
  - apply search_some in H as (pre & rest & -> & H).
    apply match_espn_s2_inv in H as (_ & _ & post & -> & Hpost).
    by exists pre, post.
  - intros Hnone pre post ->.
    apply match_espn_s2_none. by apply (search_none _ _ Hnone pre).
  - intros g H. apply search_some in H as (pre & rest & -> & H).
    apply match_SWID_inv in H as (r & post & -> & Hr & Hno & ->).
    by exists r, pre, post.
  - intros Hnone pre r post -> Hr.
    destruct (has_char "}" r) eqn:Hno; [done|].
    pose proof (search_none _ _ Hnone pre _ eq_refl) as H.
    by rewrite (match_SWID_app r post Hr Hno) in H.
Qed.

(** X22.  [parse_cookies_from_file] raises no [Exception].  A failure
    to open or read the file that is an [Exception] comes back as a
    result with both cookies [None] and an [error]: the text
    [File <filepath> not found] for [FileNotFoundError], the
    exception's own text otherwise.  Only what is no [Exception]
    passes through, and a result has the key [error] exactly when the
    file could not be read. *)
Theorem parse_cookies_errors (filepath : string) :
  match parse_cookies_from_file read_file filepath with
  | Ok (JObj members) =>
      (SleeperFantasy.assoc "error" members = None
       <-> is_Ok (read_file filepath) = true)
      /\ (forall e, read_file filepath = Err e ->
            members = [("espn_s2", JNull); ("swid", JNull);
                       ("error", JStr (if is_FileNotFoundError e
                                       then "File " ++ filepath ++ " not found"
                                       else exc_str e))])
  | Ok _ => False
  | Err e => read_file filepath = Err e /\ is_Exception e = false
  end.
Proof.
  unfold parse_cookies_from_file.
  destruct (read_file filepath) as [content|e]; [by cbn|].
  destruct (is_FileNotFoundError e) eqn:Hnf.
  - split; [by cbn|]. intros e' [= <-]. by rewrite Hnf.
  - destruct (is_Exception e) eqn:He; [|done].
    split; [by cbn|]. intros e' [= <-]. by rewrite Hnf.
Qed.

(** X23.  A cookie string is read back.  From a file that starts with
    [espn_s2=v;], goes on without an opening brace and then has
    [SWID={r}], where [v] is not empty and holds neither a semicolon
    nor an opening brace and [r] is not empty and holds no closing
    brace, the result is [v] and [{r}], whatever follows. *)
Theorem parse_cookies_round_trip (filepath v mid r post : string) :
  v <> "" -> has_char ";" v = false -> has_char "{" v = false ->
  has_char "{" mid = false ->
  r <> "" -> has_char "}" r = false ->
  read_file filepath
  = Ok ("espn_s2=" ++ v ++ ";" ++ mid ++ "SWID={" ++ r ++ "}" ++ post) ->
  parse_cookies_from_file read_file filepath
  = Ok (JObj [("espn_s2", JStr v); ("swid", JStr ("{" ++ r ++ "}"))]).
Proof.
  intros Hv Hv1 Hv2 Hmid Hr Hr1 Hread.
  unfold parse_cookies_from_file. rewrite Hread. cbv zeta.
  rewrite (search_here match_espn_s2 _ v).
  2: { change (";" ++ mid ++ "SWID={" ++ r ++ "}" ++ post)
         with (String ";" (mid ++ "SWID={" ++ r ++ "}" ++ post)).
       by apply match_espn_s2_app. }
  replace ("espn_s2=" ++ v ++ ";" ++ mid ++ "SWID={" ++ r ++ "}" ++ post)
    with (("espn_s2=" ++ v ++ ";" ++ mid) ++ "SWID=" ++ "{" ++ r ++ "}" ++ post).
  2: { rewrite !str_app_assoc. done. }
  rewrite search_SWID_skip.
  2: { rewrite !has_char_app, Hv2, Hmid. done. }
  rewrite (search_here match_SWID _ ("{" ++ r ++ "}")); [done|].
  by apply match_SWID_app.
Qed.

End Cookies.

Lemma parse_cookies_found_witness :
  exists espn_s2 swid : option string,
    parse_cookies_from_file (fun _ => Ok "a=1; espn_s2=AEAU%2F; SWID={1ABB-0930}")
      "cookies.txt"
    = Ok (JObj [("espn_s2", group_or_None espn_s2); ("swid", group_or_None swid)])
    /\ espn_s2 = Some "AEAU%2F" /\ swid = Some "{1ABB-0930}".
Proof.
  destruct (parse_cookies_found
              (fun _ => Ok "a=1; espn_s2=AEAU%2F; SWID={1ABB-0930}")
              "cookies.txt" _ eq_refl)
    as (espn_s2 & swid & Hparse & _).
  exists espn_s2, swid. split; [exact Hparse|].
  vm_compute in Hparse.
  destruct espn_s2, swid; simpl in Hparse; by simplify_eq.
Defined.

Lemma parse_cookies_round_trip_witness :
  parse_cookies_from_file
    (fun _ => Ok "espn_s2=AEAU%2F; other=1; SWID={1ABB-0930}; more=2") "cookies.txt"
  = Ok (JObj [("espn_s2", JStr "AEAU%2F"); ("swid", JStr "{1ABB-0930}")]).
Proof.
  apply (parse_cookies_round_trip
           (fun _ => Ok "espn_s2=AEAU%2F; other=1; SWID={1ABB-0930}; more=2")
           "cookies.txt" "AEAU%2F" " other=1; " "1ABB-0930" "; more=2");
    done.
Defined.


End EspnProps.
